(** * iota-tangle-peerer: a shallow embedding of [main.go]

    The sidecar keeps one peering entry on the main hornet node in step with
    the local node's multiaddress.  This development embeds [main.go] as Rocq
    functions and proves what one reconciliation cycle ([tryPeering]), the
    address builder ([calculateMultiaddress]) and the start-up sequence
    ([main]) do.

    Everything outside the repository (the Kubernetes client, the HTTP
    transport, the JSON and PEM/PKCS#8 decoders, libp2p, the environment
    parser, the clock) is a field of the record [World]: the theorems hold for
    every behaviour of those collaborators.  Calls that reach the outside are
    recorded, in order, in a trace of [Event]s.  Log output is not modelled. *)

From Stdlib Require Import ZArith Ascii String List Lia Bool.
From Stdlib Require Import DecimalString DecimalZ.
From stdpp Require Import base option list strings gmap.

Set Warnings "-register-all".

Local Open Scope Z_scope.
Local Open Scope string_scope.

(** ** Go values *)

(** A Go [(T, error)] pair. *)
Inductive result (A : Type) : Type :=
| Ok (a : A)
| Err (msg : string).
Arguments Ok {A} a.
Arguments Err {A} msg.

(** What [encoding/json] stores in an [interface{}]: [nil], [bool],
    [float64] (its value is never inspected here), [string],
    [[]interface{}] and [map[string]interface{}]. *)
Inductive json : Type :=
| JNull
| JBool (b : bool)
| JNumber (n : Z)
| JString (s : string)
| JArray (l : list json)
| JObject (m : gmap string json).

(** One element of [peers []map[string]interface{}].  A nil map answers every
    lookup with "absent", like the empty map. *)
Abbreviation PeerRecord := (gmap string json).

(** The type assertion [v.(string)] applied to the result of a map lookup. *)
Definition as_string (v : option json) : option string :=
  match v with
  | Some (JString s) => Some s
  | _ => None
  end.

(** [getMultiaddressFromPeer] (main.go:290-304). *)
Definition getMultiaddressFromPeer (p : PeerRecord) : option string :=
  match p !! "multiAddress" with
  | None => None
  | Some raw =>
      match raw with
      | JArray list =>
          match list with
          | [] => None
          | first :: _ => as_string (Some first)
          end
      | _ => None
      end
  end.

(** [fmt]'s [%d] verb on an [int]. *)
Definition fmt_d (n : Z) : string := NilEmpty.string_of_int (Z.to_int n).

(** ** The outside world *)

Inductive Method : Type := GET | POST | DELETE.

(** An [*http.Request]: method, URL, body bytes ([None] for a nil body) and
    the header lines in the order they were added. *)
Record Request : Type := mkRequest {
  ReqMethod : Method;
  ReqURL : string;
  ReqBody : option string;
  ReqHeader : list (string * string)
}.

(** An [*http.Response]: the status code and what [io.ReadAll] gives for the
    body. *)
Record Response : Type := mkResponse {
  StatusCode : Z;
  Body : result string
}.

(** [metav1.ListOptions], the two fields that are set. *)
Record ListOptions : Type := mkListOptions {
  LabelSelector : string;
  FieldSelector : string
}.

(** A pod of the list, reduced to [Status.PodIP]. *)
Record Pod : Type := mkPod { PodIP : string }.

(** [envConfig] (main.go:26-29). *)
Record envConfig : Type := mkEnvConfig {
  MyNodeName : string;
  MyIP : string
}.

(** What [x509.ParsePKCS8PrivateKey] can return. *)
Inductive CryptoKey : Type :=
| RSAKey
| ECDSAKey
| ECDHKey
| Ed25519Key (k : string).

(** Calls that leave the process, in the order they are made.  Durations are
    [time.Duration] values, in nanoseconds. *)
Inductive Event : Type :=
| EvInClusterConfig
| EvNewForConfig
| EvStat (path : string)
| EvReadFile (path : string)
| EvListPods (ns : string) (opts : ListOptions)
| EvHttp (req : Request)
| EvSleep (d : Z).

(** The collaborators.  Those that can answer differently from one call to
    the next take the trace so far as an argument. *)
Record World : Type := mkWorld {
  (** [url.Parse] succeeds on this URL *)
  url_parses : string -> bool;
  (** [http.DefaultClient.Do] *)
  http_do : list Event -> Request -> result Response;
  (** [k8sClient.CoreV1().Pods(ns).List(ctx, opts)] under its 5s deadline *)
  list_pods : list Event -> string -> ListOptions -> result (list Pod);
  (** [json.Unmarshal(body, &peers)] *)
  json_unmarshal_peers : string -> result (list PeerRecord);
  (** [json.Marshal] of a [map[string]string] *)
  json_marshal : gmap string string -> string;
  (** [env.Parse(&envCfg)]: the struct as it is left, and the error if any *)
  env_Parse : envConfig * option string;
  (** [rest.InClusterConfig] *)
  in_cluster_config : list Event -> result unit;
  (** [kubernetes.NewForConfig] *)
  new_for_config : list Event -> result unit;
  (** [os.IsNotExist(err)] for the [err] of [os.Stat(path)] *)
  stat_not_exist : list Event -> string -> bool;
  (** [os.ReadFile] *)
  read_file : list Event -> string -> result string;
  (** [pem.Decode]: the bytes of the first block, if there is one *)
  pem_decode : string -> option string;
  (** [x509.ParsePKCS8PrivateKey] *)
  parse_pkcs8 : string -> result CryptoKey;
  (** [libp2pcrypto.KeyPairFromStdKey] on an Ed25519 key: the libp2p private key *)
  keypair_from_std_key : string -> result string;
  (** [libp2ppeer.IDFromPrivateKey], the ID in its [String()] form *)
  id_from_private_key : string -> result string
}.

(** ** Effects: a state monad over the trace *)

Definition M (A : Type) : Type := list Event -> A * list Event.

Definition mret {A} (a : A) : M A := fun tr => (a, tr).

Definition mbind {A B} (c : M A) (k : A -> M B) : M B :=
  fun tr => let (a, tr') := c tr in k a tr'.

Notation "x <- c ;; k" := (mbind c (fun x => k))
  (at level 100, c at next level, right associativity).
Notation "c ;;; k" := (mbind c (fun _ => k))
  (at level 100, right associativity).

Definition perform {A} (answer : list Event -> A) (e : Event) : M A :=
  fun tr => (answer tr, (tr ++ [e])%list).

Definition sleep (d : Z) : M unit := perform (fun _ => tt) (EvSleep d).

(** [time.Second] and [time.Hour], in nanoseconds. *)
Definition Second : Z := 1000000000.
Definition Hour : Z := 3600 * Second.

(** ** HTTP requests *)

(** [http.NewRequest] with one of the three method literals of [main.go]: it
    fails exactly when the URL does not parse. *)
Definition NewRequest (W : World) (method : Method) (url : string)
    (body : option string) : option Request :=
  if url_parses W url
  then Some {| ReqMethod := method; ReqURL := url; ReqBody := body; ReqHeader := [] |}
  else None.

(** [req.Header.Add(key, value)]. *)
Definition Header_Add (req : Request) (key value : string) : Request :=
  {| ReqMethod := ReqMethod req; ReqURL := ReqURL req; ReqBody := ReqBody req;
     ReqHeader := (ReqHeader req ++ [(key, value)])%list |}.

Definition clientDo (W : World) (req : Request) : M (result Response) :=
  perform (fun tr => http_do W tr req) (EvHttp req).

Definition listPods (W : World) (ns : string) (opts : ListOptions)
    : M (result (list Pod)) :=
  perform (fun tr => list_pods W tr ns opts) (EvListPods ns opts).

(** ** One reconciliation cycle *)

(** The URL of the peers collection (main.go:180). *)
Definition peersURL (mainHornetIP : string) (hornetRestApiPort : Z) : string :=
  "http://" ++ mainHornetIP ++ ":" ++ fmt_d hornetRestApiPort ++ "/api/core/v2/peers".

(** The URL of one peer (main.go:231). *)
Definition peerURL (mainHornetIP : string) (hornetRestApiPort : Z)
    (peerIdInMain : string) : string :=
  "http://" ++ mainHornetIP ++ ":" ++ fmt_d hornetRestApiPort
    ++ "/api/core/v2/peers/" ++ peerIdInMain.

(** The loop [for _, peer := range peers] of [tryPeering] (main.go:213-251).
    [Some b]: the function returned [b] from inside the loop; [None]: the
    loop ran to its end. *)
Fixpoint rangePeers (W : World) (myNodeName multiaddress mainHornetIP : string)
    (hornetRestApiPort : Z) (peers : list PeerRecord) : M (option bool) :=
  match peers with
  | [] => mret None
  | peer :: rest =>
      let continue :=
        rangePeers W myNodeName multiaddress mainHornetIP hornetRestApiPort rest in
      match as_string (peer !! "alias") with
      | None => continue
      | Some alias =>
          if negb (String.eqb alias myNodeName) then continue else
          match getMultiaddressFromPeer peer with
          | None => mret (Some false)
          | Some multiaddressInMain =>
              match as_string (peer !! "id") with
              | None => mret (Some false)
              | Some peerIdInMain =>
                  let fullMultiInMain := multiaddressInMain ++ "/p2p/" ++ peerIdInMain in
                  if String.eqb fullMultiInMain multiaddress then mret (Some true) else
                  let url := peerURL mainHornetIP hornetRestApiPort peerIdInMain in
                  match NewRequest W DELETE url None with
                  | None => mret (Some false)
                  | Some req =>
                      res <- clientDo W req ;;
                      match res with
                      | Err _ => mret (Some false)
                      | Ok res =>
                          if negb (StatusCode res =? 204)%Z then mret (Some false)
                          else continue
                      end
                  end
              end
          end
      end
  end.

(** The body of the POST (main.go:253-256). *)
Definition peeringPayload (W : World) (multiaddress myNodeName : string) : string :=
  json_marshal W (<["multiAddress" := multiaddress]> (<["alias" := myNodeName]> ∅)).

(** The create step (main.go:252-278). *)
Definition establishPeering (W : World) (myNodeName multiaddress url : string)
    : M bool :=
  let payload := peeringPayload W multiaddress myNodeName in
  match NewRequest W POST url (Some payload) with
  | None => mret false
  | Some req =>
      let req := Header_Add req "Content-Type" "application/json" in
      let req := Header_Add req "Accept" "application/json" in
      res <- clientDo W req ;;
      match res with
      | Err _ => mret false
      | Ok res => if negb (StatusCode res =? 200)%Z then mret false else mret true
      end
  end.

(** [tryPeering] (main.go:157-279). *)
Definition tryPeering (W : World)
    (myNodeName mainNodeName iotaHornetSelector iotaHornetNs multiaddress : string)
    (hornetRestApiPort : Z) : M bool :=
  podList <- listPods W iotaHornetNs
               {| LabelSelector := iotaHornetSelector;
                  FieldSelector := "spec.nodeName=" ++ mainNodeName |} ;;
  match podList with
  | Err _ => mret false
  | Ok items =>
      if negb (Nat.eqb (length items) 1) then mret false else
      match items !! 0%nat with
      | None => mret false
      | Some mainHornet =>
          let mainHornetIP := PodIP mainHornet in
          if String.eqb mainHornetIP "" then mret false else
          let url := peersURL mainHornetIP hornetRestApiPort in
          match NewRequest W GET url None with
          | None => mret false
          | Some req =>
              let req := Header_Add req "Accept" "application/json" in
              res <- clientDo W req ;;
              match res with
              | Err _ => mret false
              | Ok res =>
                  if negb (StatusCode res =? 200)%Z then mret false else
                  match Body res with
                  | Err _ => mret false
                  | Ok bodyBytes =>
                      match json_unmarshal_peers W bodyBytes with
                      | Err _ => mret false
                      | Ok peers =>
                          r <- rangePeers W myNodeName multiaddress mainHornetIP
                                 hornetRestApiPort peers ;;
                          match r with
                          | Some b => mret b
                          | None => establishPeering W myNodeName multiaddress url
                          end
                      end
                  end
              end
          end
      end
  end.

(** ** The address builder *)

(** The file-wait loop of [calculateMultiaddress] (main.go:107-113), run for
    at most [fuel] polls.  [true]: the loop was left by [break]; [false]: the
    file was still absent after [fuel] polls. *)
Fixpoint waitForFile (W : World) (privateKeyFile : string) (fuel : nat) : M bool :=
  match fuel with
  | O => mret false
  | S fuel' =>
      notExist <- perform (fun tr => stat_not_exist W tr privateKeyFile)
                    (EvStat privateKeyFile) ;;
      if negb notExist then mret true
      else sleep (5 * Second) ;;; waitForFile W privateKeyFile fuel'
  end.

(** [readEd25519PrivateKeyFromPEMFile] (main.go:132-155). *)
Definition readEd25519PrivateKeyFromPEMFile (W : World) (filepath : string)
    : M (result string) :=
  pemPrivateBlockBytes <- perform (fun tr => read_file W tr filepath)
                            (EvReadFile filepath) ;;
  match pemPrivateBlockBytes with
  | Err err => mret (Err ("unable to read private key: " ++ err))
  | Ok pemPrivateBlockBytes =>
      match pem_decode W pemPrivateBlockBytes with
      | None => mret (Err "unable to decode private key")
      | Some pemPrivateBlock =>
          match parse_pkcs8 W pemPrivateBlock with
          | Err err => mret (Err ("unable to parse private key: " ++ err))
          | Ok cryptoPrivKey =>
              match cryptoPrivKey with
              | Ed25519Key privKey => mret (Ok privKey)
              | _ => mret (Err "unable to type assert private key")
              end
          end
      end
  end.

(** The [fmt.Sprintf] of main.go:127. *)
Definition sprintfMultiaddress (myIp : string) (gossipProtocolPort : Z)
    (peerID : string) : string :=
  "/ip4/" ++ myIp ++ "/tcp/" ++ fmt_d gossipProtocolPort ++ "/p2p/" ++ peerID.

(** [calculateMultiaddress] (main.go:106-129).  [None]: still waiting for the
    key file when the fuel ran out. *)
Definition calculateMultiaddress (W : World) (fuel : nat)
    (privateKeyFile myIp : string) (gossipProtocolPort : Z)
    : M (option (result string)) :=
  found <- waitForFile W privateKeyFile fuel ;;
  if negb found then mret None else
  privKey <- readEd25519PrivateKeyFromPEMFile W privateKeyFile ;;
  match privKey with
  | Err err =>
      mret (Some (Err ("unable to load Ed25519 private key for peer identity: " ++ err)))
  | Ok privKey =>
      match keypair_from_std_key W privKey with
      | Err err => mret (Some (Err ("Failed to get libp2pkey from ed25519 key: " ++ err)))
      | Ok libp2pPrivKey =>
          match id_from_private_key W libp2pPrivKey with
          | Err err => mret (Some (Err ("Failed to get Peer ID from private key: " ++ err)))
          | Ok peerID =>
              mret (Some (Ok (sprintfMultiaddress myIp gossipProtocolPort peerID)))
          end
      end
  end.

(** The trace after [k] polls of the file-wait loop that found no file. *)
Fixpoint polls (privateKeyFile : string) (k : nat) (tr : list Event) : list Event :=
  match k with
  | O => tr
  | S k' => polls privateKeyFile k' (tr ++ [EvStat privateKeyFile; EvSleep (5 * Second)])%list
  end.

(** ** Start-up and the scheduler loop *)

(** The command-line flags after [flag.Parse] (main.go:33-50). *)
Record Flags : Type := mkFlags {
  mainNodeName : string;
  iotaHornetSelector : string;
  iotaHornetNs : string;
  privateKeyFile : string;
  refreshPeriod : Z;
  retryPeriod : Z;
  hornetRestApiPort : Z;
  gossipProtocolPort : Z
}.

(** How far the process got: it called [os.Exit], or it is still inside one
    of its unbounded loops when the fuel ran out. *)
Inductive Status : Type :=
| Exited (code : Z)
| Running.

(** [for { time.Sleep(10000 * time.Hour) }] (main.go:77-79), [fuel] rounds. *)
Fixpoint sleepForever (fuel : nat) : M Status :=
  match fuel with
  | O => mret Running
  | S fuel' => sleep (10000 * Hour) ;;; sleepForever fuel'
  end.

(** The two nested loops of main.go:99-103, for [fuel] calls of [tryPeering].
    The post statement of the inner loop runs after every call; that of the
    outer loop once the inner loop has ended. *)
Fixpoint schedulerLoop (W : World) (flags : Flags) (myNodeName multiaddress : string)
    (fuel : nat) : M Status :=
  match fuel with
  | O => mret Running
  | S fuel' =>
      done <- tryPeering W myNodeName (mainNodeName flags) (iotaHornetSelector flags)
                (iotaHornetNs flags) multiaddress (hornetRestApiPort flags) ;;
      sleep (retryPeriod flags) ;;;
      (if done then sleep (refreshPeriod flags) else mret tt) ;;;
      schedulerLoop W flags myNodeName multiaddress fuel'
  end.

(** [main] (main.go:31-104).  The error of [env.Parse] is printed and
    dropped: only the struct it filled is used. *)
Definition main (W : World) (flags : Flags) (fuel : nat) : M Status :=
  let envCfg := fst (env_Parse W) in
  if String.eqb (mainNodeName flags) "" then mret (Exited 1) else
  if String.eqb (iotaHornetSelector flags) "" then mret (Exited 1) else
  if String.eqb (iotaHornetNs flags) "" then mret (Exited 1) else
  if String.eqb (privateKeyFile flags) "" then mret (Exited 1) else
  if String.eqb (mainNodeName flags) (MyNodeName envCfg) then sleepForever fuel else
  config <- perform (in_cluster_config W) EvInClusterConfig ;;
  match config with
  | Err _ => mret (Exited 1)
  | Ok _ =>
      k8sClient <- perform (new_for_config W) EvNewForConfig ;;
      match k8sClient with
      | Err _ => mret (Exited 1)
      | Ok _ =>
          multiaddress <- calculateMultiaddress W fuel (privateKeyFile flags)
                            (MyIP envCfg) (gossipProtocolPort flags) ;;
          match multiaddress with
          | None => mret Running
          | Some (Err _) => mret (Exited 1)
          | Some (Ok multiaddress) =>
              schedulerLoop W flags (MyNodeName envCfg) multiaddress fuel
          end
      end
  end.

(** ** Reading a trace *)

Definition Method_eqb (a b : Method) : bool :=
  match a, b with
  | GET, GET | POST, POST | DELETE, DELETE => true
  | _, _ => false
  end.

(** The HTTP requests of a trace, in order. *)
Fixpoint requests (tr : list Event) : list Request :=
  match tr with
  | [] => []
  | EvHttp req :: tr' => req :: requests tr'
  | _ :: tr' => requests tr'
  end.

(** The requests of a trace made with method [m]. *)
Definition calls (m : Method) (tr : list Event) : list Request :=
  List.filter (fun req => Method_eqb (ReqMethod req) m) (requests tr).

(** The calls that change the peer table: POST and DELETE. *)
Definition mutatingCalls (tr : list Event) : list Request :=
  List.filter (fun req => negb (Method_eqb (ReqMethod req) GET)) (requests tr).

(** The three requests [tryPeering] builds. *)
Definition getPeersRequest (mainHornetIP : string) (port : Z) : Request :=
  {| ReqMethod := GET; ReqURL := peersURL mainHornetIP port; ReqBody := None;
     ReqHeader := [("Accept", "application/json")] |}.

Definition deletePeerRequest (mainHornetIP : string) (port : Z) (peerId : string)
    : Request :=
  {| ReqMethod := DELETE; ReqURL := peerURL mainHornetIP port peerId;
     ReqBody := None; ReqHeader := [] |}.

Definition postPeerRequest (W : World) (mainHornetIP : string) (port : Z)
    (multiaddress myNodeName : string) : Request :=
  {| ReqMethod := POST; ReqURL := peersURL mainHornetIP port;
     ReqBody := Some (peeringPayload W multiaddress myNodeName);
     ReqHeader := [("Content-Type", "application/json"); ("Accept", "application/json")] |}.

(** The answer to the POST is status 200: the create step succeeds. *)
Definition postAnswer (res : result Response) : bool :=
  match res with
  | Ok res => (StatusCode res =? 200)%Z
  | Err _ => false
  end.

(** The answer to a DELETE is status 204: the scan of the list goes on. *)
Definition deleted (res : result Response) : bool :=
  match res with
  | Ok res => (StatusCode res =? 204)%Z
  | Err _ => false
  end.

(** The four checks of main.go:57-72 all pass. *)
Definition flagsValid (flags : Flags) : bool :=
  negb (String.eqb (mainNodeName flags) "")
  && negb (String.eqb (iotaHornetSelector flags) "")
  && negb (String.eqb (iotaHornetNs flags) "")
  && negb (String.eqb (privateKeyFile flags) "").

(** The directory lookup of a cycle. *)
Definition podLookup (iotaHornetSelector iotaHornetNs mainNodeName : string) : Event :=
  EvListPods iotaHornetNs
    {| LabelSelector := iotaHornetSelector;
       FieldSelector := "spec.nodeName=" ++ mainNodeName |}.

(** A record carries the alias [myNodeName]. *)
Definition hasAlias (myNodeName : string) (p : PeerRecord) : bool :=
  match as_string (p !! "alias") with
  | Some alias => String.eqb alias myNodeName
  | None => false
  end.

(** [dels] are DELETE requests a scan of [peers] can make: at most one for
    each record of the alias, each addressed by the id of such a record. *)
Definition deletesFor (myNodeName mainHornetIP : string) (port : Z)
    (peers : list PeerRecord) (dels : list Request) : Prop :=
  (length dels <= length (List.filter (hasAlias myNodeName) peers))%nat
  /\ Forall (fun req => exists p i,
               In p peers /\ hasAlias myNodeName p = true
               /\ as_string (p !! "id") = Some i
               /\ req = deletePeerRequest mainHornetIP port i) dels.

(** The address the cycle compares with the desired one: first advertised
    address, ["/p2p/"], record id; [None] when either field is missing. *)
Definition reconstructedAddress (p : PeerRecord) : option string :=
  match getMultiaddressFromPeer p, as_string (p !! "id") with
  | Some multiaddressInMain, Some peerIdInMain =>
      Some (multiaddressInMain ++ "/p2p/" ++ peerIdInMain)
  | _, _ => None
  end.

(** The List call of a cycle started at trace [tr] gave the peer list
    [peers]: the lookup found the single pod [mainHornetIP], the GET was
    built, answered 200, read and decoded. *)
Record Listed (W : World) (mainNodeName iotaHornetSelector iotaHornetNs : string)
    (port : Z) (tr : list Event) (mainHornetIP : string)
    (peers : list PeerRecord) : Prop := mkListed {
  listed_pods :
    list_pods W tr iotaHornetNs
      {| LabelSelector := iotaHornetSelector;
         FieldSelector := "spec.nodeName=" ++ mainNodeName |}
    = Ok [{| PodIP := mainHornetIP |}];
  listed_ip : mainHornetIP <> "";
  listed_url : url_parses W (peersURL mainHornetIP port) = true;
  listed_get : exists bodyBytes,
    http_do W (tr ++ [podLookup iotaHornetSelector iotaHornetNs mainNodeName])%list
      (getPeersRequest mainHornetIP port)
    = Ok {| StatusCode := 200; Body := Ok bodyBytes |}
    /\ json_unmarshal_peers W bodyBytes = Ok peers
}.

(** ** Parsing a multiaddress back *)

(** Cut [s] at the first [sep]: what is before it and what is after it. *)
Fixpoint cut (sep : ascii) (s : string) : option (string * string) :=
  match s with
  | EmptyString => None
  | String c s' =>
      if Ascii.eqb c sep then Some (EmptyString, s')
      else match cut sep s' with
           | Some (before, after) => Some (String c before, after)
           | None => None
           end
  end.

(** Remove the prefix [p] from [s]. *)
Fixpoint trimPrefix (p s : string) : option string :=
  match p with
  | EmptyString => Some s
  | String a p' =>
      match s with
      | String b s' => if Ascii.eqb a b then trimPrefix p' s' else None
      | EmptyString => None
      end
  end.

(** The inverse of [fmt_d]. *)
Definition parse_d (s : string) : option Z :=
  match NilEmpty.int_of_string s with
  | Some d => Some (Z.of_int d)
  | None => None
  end.

(** The reader of the form [/ip4/<ip>/tcp/<port>/p2p/<peerID>]: it splits on
    the three fixed delimiters [/ip4/], [/tcp/] and [/p2p/] and gives the
    three components. *)
Definition parseMultiaddress (s : string) : option (string * Z * string) :=
  match trimPrefix "/ip4/" s with
  | None => None
  | Some s1 =>
      match cut "/" s1 with
      | None => None
      | Some (ip, s2) =>
          match trimPrefix "tcp/" s2 with
          | None => None
          | Some s3 =>
              match cut "/" s3 with
              | None => None
              | Some (port, s4) =>
                  match trimPrefix "p2p/" s4, parse_d port with
                  | Some peerID, Some p => Some (ip, p, peerID)
                  | _, _ => None
                  end
              end
          end
      end
  end.

(** The characters of a string. *)
Fixpoint chars (s : string) : list ascii :=
  match s with
  | EmptyString => []
  | String c s' => c :: chars s'
  end.

(** No character of [s] is a slash. *)
Definition noSlash (s : string) : bool :=
  forallb (fun c => negb (Ascii.eqb c "/")) (chars s).

Definition isDigit (c : ascii) : bool :=
  ((48 <=? Z.of_nat (nat_of_ascii c)) && (Z.of_nat (nat_of_ascii c) <=? 57))%Z.

(** One part of a dotted quad: one to three decimal digits, no leading zero,
    at most 255. *)
Definition isOctet (s : string) : bool :=
  forallb isDigit (chars s)
  && match parse_d s with
     | Some n => (n <=? 255)%Z && String.eqb (fmt_d n) s
     | None => false
     end.

(** [strings.Split(s, sep)] for a one-character separator. *)
Fixpoint split (sep : ascii) (s : string) : list string :=
  match s with
  | EmptyString => [EmptyString]
  | String c s' =>
      if Ascii.eqb c sep then EmptyString :: split sep s'
      else match split sep s' with
           | [] => [String c EmptyString]
           | part :: parts => String c part :: parts
           end
  end.

(** A valid IPv4 string: four octets separated by dots. *)
Definition isIPv4 (s : string) : bool :=
  match split "." s with
  | [a; b; c; d] => isOctet a && isOctet b && isOctet c && isOctet d
  | _ => false
  end.

(** ** A concrete world for the examples *)

Module Scenario.

(** The desired state of the end-to-end scenarios. *)
Definition myNodeName : string := "node-b".
Definition multiaddress : string := "/ip4/10.0.0.5/tcp/15600/p2p/Qm123".

Definition record (id alias address : string) : PeerRecord :=
  <["id" := JString id]>
    (<["alias" := JString alias]>
       (<["multiAddress" := JArray [JString address]]> ∅)).

(** The stale record of the first scenario, and the record the second
    scenario finds in place. *)
Definition stale : PeerRecord := record "Qm999" "node-b" "/ip4/10.0.0.9/tcp/15600".
Definition fresh : PeerRecord := record "Qm123" "node-b" "/ip4/10.0.0.5/tcp/15600".

(** A second stale record, and a record of the alias without an id. *)
Definition stale2 : PeerRecord := record "Qm888" "node-b" "/ip4/10.0.0.8/tcp/15600".
Definition noId : PeerRecord :=
  <["alias" := JString "node-b"]>
    (<["multiAddress" := JArray [JString "/ip4/10.0.0.9/tcp/15600"]]> ∅).

(** The pod of the main node. *)
Definition mainPod : list Pod := [{| PodIP := "10.0.0.1" |}].

(** A directory that answers every lookup with [pods]; a main node whose
    peer table is [peers], which answers every DELETE with [deleteStatus]
    and every POST with [postStatus]; a key file that is in place and gives
    the peer ID [Qm123]; and the outcome [parsed] of [env.Parse]. *)
Definition world (pods : list Pod) (peers : list PeerRecord)
    (deleteStatus postStatus : Z) (parsed : envConfig * option string) : World :=
  {| url_parses := fun _ => true;
     http_do := fun _ req =>
       match ReqMethod req with
       | GET => Ok {| StatusCode := 200; Body := Ok "peers" |}
       | DELETE => Ok {| StatusCode := deleteStatus; Body := Ok "" |}
       | POST => Ok {| StatusCode := postStatus; Body := Ok "" |}
       end;
     list_pods := fun _ _ _ => Ok pods;
     json_unmarshal_peers := fun _ => Ok peers;
     json_marshal := fun m =>
       "alias=" ++ default "" (m !! "alias")
         ++ " multiAddress=" ++ default "" (m !! "multiAddress");
     env_Parse := parsed;
     in_cluster_config := fun _ => Ok tt;
     new_for_config := fun _ => Ok tt;
     stat_not_exist := fun _ _ => false;
     read_file := fun _ _ => Ok "pem";
     pem_decode := fun _ => Some "der";
     parse_pkcs8 := fun _ => Ok (Ed25519Key "key");
     keypair_from_std_key := fun k => Ok k;
     id_from_private_key := fun _ => Ok "Qm123" |}.

Definition envOk : envConfig * option string :=
  ({| MyNodeName := "node-b"; MyIP := "10.0.0.5" |}, None).

(** [MY_NODE_NAME] is not set: the field stays empty and [env.Parse]
    reports it. *)
Definition envNoNodeName : envConfig * option string :=
  ({| MyNodeName := ""; MyIP := "10.0.0.5" |},
   Some "env: environment variable MY_NODE_NAME should not be empty").

Definition flags : Flags :=
  {| mainNodeName := "node-a";
     iotaHornetSelector := "app=hornet";
     iotaHornetNs := "iota";
     privateKeyFile := "/app/p2pstore/identity.key";
     refreshPeriod := 300 * Second;
     retryPeriod := 5 * Second;
     hornetRestApiPort := 14265;
     gossipProtocolPort := 15600 |}.

(** The same with [--iota-hornet-selector] left out. *)
Definition flagsNoSelector : Flags :=
  {| mainNodeName := "node-a";
     iotaHornetSelector := "";
     iotaHornetNs := "iota";
     privateKeyFile := "/app/p2pstore/identity.key";
     refreshPeriod := 300 * Second;
     retryPeriod := 5 * Second;
     hornetRestApiPort := 14265;
     gossipProtocolPort := 15600 |}.

(** The local node is the main node. *)
Definition envMainNode : envConfig * option string :=
  ({| MyNodeName := "node-a"; MyIP := "10.0.0.5" |}, None).

(** The worlds of the examples, named after what the main node holds or
    answers. *)
Definition converged : World := world mainPod [fresh] 204 200 envOk.
Definition replaced : World := world mainPod [stale] 204 200 envOk.
Definition createRefused : World := world mainPod [stale] 204 500 envOk.
Definition staleThenFresh : World := world mainPod [stale; fresh] 204 200 envOk.
Definition twoStale : World := world mainPod [stale; stale2] 204 200 envOk.
Definition recordWithoutId : World := world mainPod [noId] 204 200 envOk.
Definition emptyTable : World := world mainPod [] 204 200 envOk.
Definition createAnswered201 : World := world mainPod [] 204 201 envOk.
Definition noPod : World := world [] [] 204 200 envOk.
Definition nodeNameUnset : World := world mainPod [] 204 200 envNoNodeName.
Definition onMainNode : World := world mainPod [] 204 200 envMainNode.

(** One cycle against a world, from the empty trace. *)
Definition cycle (W : World) : bool * list Event :=
  tryPeering W myNodeName "node-a" "app=hornet" "iota" multiaddress 14265 [].

(** The calls of such a cycle. *)
Definition lookup : Event := podLookup "app=hornet" "iota" "node-a".
Definition get : Request := getPeersRequest "10.0.0.1" 14265.
Definition delete (id : string) : Request := deletePeerRequest "10.0.0.1" 14265 id.
Definition create (W : World) : Request :=
  postPeerRequest W "10.0.0.1" 14265 multiaddress myNodeName.

End Scenario.

(** ** More readers of a trace *)

(** What the List call of a cycle yields (main.go:190-211): the peer list,
    when the GET is answered 200 with a body that can be read and decoded. *)
Definition listAnswer (W : World) (res : result Response) : option (list PeerRecord) :=
  match res with
  | Err _ => None
  | Ok res =>
      if negb (StatusCode res =? 200)%Z then None else
      match Body res with
      | Err _ => None
      | Ok bodyBytes =>
          match json_unmarshal_peers W bodyBytes with
          | Err _ => None
          | Ok peers => Some peers
          end
      end
  end.

(** The DELETE the scan sends for a record that has an id. *)
Definition deleteOf (mainHornetIP : string) (port : Z) (p : PeerRecord) : Request :=
  deletePeerRequest mainHornetIP port (default "" (as_string (p !! "id"))).

(** Calls that go over the network: directory lookups and HTTP requests. *)
Definition isNetworkCall (e : Event) : bool :=
  match e with
  | EvListPods _ _ | EvHttp _ => true
  | _ => false
  end.

Definition networkCalls (tr : list Event) : list Event :=
  List.filter isNetworkCall tr.

Definition isLookup (e : Event) : bool :=
  match e with
  | EvListPods _ _ => true
  | _ => false
  end.

(** The directory lookups of a trace. *)
Definition lookups (tr : list Event) : list Event := List.filter isLookup tr.

Definition isKeyRead (e : Event) : bool :=
  match e with
  | EvReadFile _ => true
  | _ => false
  end.

(** The reads of a file in a trace. *)
Definition keyReads (tr : list Event) : list Event := List.filter isKeyRead tr.

(** ** Worlds with a fault *)

Module Faults.

(** [W] with another directory. *)
Definition withListPods (f : list Event -> string -> ListOptions -> result (list Pod)) (W : World) : World :=
  {| url_parses := url_parses W;
     http_do := http_do W;
     list_pods := f;
     json_unmarshal_peers := json_unmarshal_peers W;
     json_marshal := json_marshal W;
     env_Parse := env_Parse W;
     in_cluster_config := in_cluster_config W;
     new_for_config := new_for_config W;
     stat_not_exist := stat_not_exist W;
     read_file := read_file W;
     pem_decode := pem_decode W;
     parse_pkcs8 := parse_pkcs8 W;
     keypair_from_std_key := keypair_from_std_key W;
     id_from_private_key := id_from_private_key W |}.

(** [W] with another HTTP transport. *)
Definition withHttp (f : list Event -> Request -> result Response) (W : World) : World :=
  {| url_parses := url_parses W;
     http_do := f;
     list_pods := list_pods W;
     json_unmarshal_peers := json_unmarshal_peers W;
     json_marshal := json_marshal W;
     env_Parse := env_Parse W;
     in_cluster_config := in_cluster_config W;
     new_for_config := new_for_config W;
     stat_not_exist := stat_not_exist W;
     read_file := read_file W;
     pem_decode := pem_decode W;
     parse_pkcs8 := parse_pkcs8 W;
     keypair_from_std_key := keypair_from_std_key W;
     id_from_private_key := id_from_private_key W |}.

(** [W] with another URL parser. *)
Definition withUrlParses (f : string -> bool) (W : World) : World :=
  {| url_parses := f;
     http_do := http_do W;
     list_pods := list_pods W;
     json_unmarshal_peers := json_unmarshal_peers W;
     json_marshal := json_marshal W;
     env_Parse := env_Parse W;
     in_cluster_config := in_cluster_config W;
     new_for_config := new_for_config W;
     stat_not_exist := stat_not_exist W;
     read_file := read_file W;
     pem_decode := pem_decode W;
     parse_pkcs8 := parse_pkcs8 W;
     keypair_from_std_key := keypair_from_std_key W;
     id_from_private_key := id_from_private_key W |}.

(** [W] with another answer of [os.Stat]. *)
Definition withStat (f : list Event -> string -> bool) (W : World) : World :=
  {| url_parses := url_parses W;
     http_do := http_do W;
     list_pods := list_pods W;
     json_unmarshal_peers := json_unmarshal_peers W;
     json_marshal := json_marshal W;
     env_Parse := env_Parse W;
     in_cluster_config := in_cluster_config W;
     new_for_config := new_for_config W;
     stat_not_exist := f;
     read_file := read_file W;
     pem_decode := pem_decode W;
     parse_pkcs8 := parse_pkcs8 W;
     keypair_from_std_key := keypair_from_std_key W;
     id_from_private_key := id_from_private_key W |}.

(** [W] with another PKCS#8 decoder. *)
Definition withPkcs8 (f : string -> result CryptoKey) (W : World) : World :=
  {| url_parses := url_parses W;
     http_do := http_do W;
     list_pods := list_pods W;
     json_unmarshal_peers := json_unmarshal_peers W;
     json_marshal := json_marshal W;
     env_Parse := env_Parse W;
     in_cluster_config := in_cluster_config W;
     new_for_config := new_for_config W;
     stat_not_exist := stat_not_exist W;
     read_file := read_file W;
     pem_decode := pem_decode W;
     parse_pkcs8 := f;
     keypair_from_std_key := keypair_from_std_key W;
     id_from_private_key := id_from_private_key W |}.

(** The directory lookup times out. *)
Definition lookupFails : World :=
  withListPods (fun _ _ _ => Err "context deadline exceeded") Scenario.replaced.

(** The main node answers the GET with 503. *)
Definition listRefused : World :=
  withHttp (fun _ _ => Ok {| StatusCode := 503; Body := Ok "" |}) Scenario.replaced.

(** The main node holds the stale record and answers the DELETE with 500. *)
Definition deleteRefused : World :=
  Scenario.world Scenario.mainPod [Scenario.stale; Scenario.fresh] 500 200 Scenario.envOk.

(** The stale record's URL is one [url.Parse] rejects; the others parse. *)
Definition deleteUnbuildable : World :=
  withUrlParses (fun url => String.eqb url (peersURL "10.0.0.1" 14265)) Scenario.replaced.

(** The key file never appears. *)
Definition keyAbsent : World := withStat (fun _ _ => true) Scenario.emptyTable.

(** The key file is there from the fourth poll on. *)
Definition keyLate : World :=
  withStat (fun tr _ => (length tr <? 6)%nat) Scenario.emptyTable.

(** The key file holds an RSA key. *)
Definition keyIsRSA : World := withPkcs8 (fun _ => Ok RSAKey) Scenario.emptyTable.

End Faults.

(** * Proofs *)

(** ** Running the monad *)

Lemma mbind_run {A B} (c : M A) (k : A -> M B) tr :
  mbind c k tr = k (fst (c tr)) (snd (c tr)).
Proof. unfold mbind. now destruct (c tr). Qed.

Lemma perform_run {A} (answer : list Event -> A) e tr :
  perform answer e tr = (answer tr, (tr ++ [e])%list).
Proof. reflexivity. Qed.

Lemma eqb_false_iff_neq (a b : string) : String.eqb a b = false <-> a <> b.
Proof. apply String.eqb_neq. Qed.

Ltac run :=
  repeat (rewrite ?mbind_run, ?perform_run; unfold mret, clientDo, listPods, sleep; cbn [fst snd]).

(** ** Traces *)

Lemma requests_app (a b : list Event) :
  requests (a ++ b)%list = (requests a ++ requests b)%list.
Proof.
  induction a as [|e a IH]; [reflexivity|].
  destruct e; cbn [app requests]; now rewrite ?IH.
Qed.

Lemma calls_app m (a b : list Event) :
  calls m (a ++ b)%list = (calls m a ++ calls m b)%list.
Proof. unfold calls. now rewrite requests_app, List.filter_app. Qed.

Lemma mutatingCalls_app (a b : list Event) :
  mutatingCalls (a ++ b)%list = (mutatingCalls a ++ mutatingCalls b)%list.
Proof. unfold mutatingCalls. now rewrite requests_app, List.filter_app. Qed.

(** An event that is not a POST. *)
Local Abbreviation notPost := (fun e : Event => forall req, e = EvHttp req -> ReqMethod req <> POST).

Lemma last_event_not_post (tr evs tr0 : list Event) req :
  evs <> [] ->
  Forall notPost evs ->
  (tr ++ evs)%list = (tr0 ++ [EvHttp req])%list ->
  ReqMethod req <> POST.
Proof.
  intros Hne Hall Heq.
  destruct (exists_last Hne) as (evs' & e & ->).
  rewrite app_assoc in Heq. apply app_inj_tail in Heq as [_ ->].
  apply List.Forall_app in Hall as [_ Hlast].
  inversion Hlast as [|? ? He _]; subst. now apply He.
Qed.

(** ** The create step *)

Section Cycle.

Context (W : World).
Context (myNodeName mainNodeName iotaHornetSelector iotaHornetNs multiaddress : string).
Context (port : Z).

Local Abbreviation lookup := (podLookup iotaHornetSelector iotaHornetNs mainNodeName).
Local Abbreviation cycle :=
  (tryPeering W myNodeName mainNodeName iotaHornetSelector iotaHornetNs multiaddress port).

Lemma establishPeering_run ip tr :
  url_parses W (peersURL ip port) = true ->
  establishPeering W myNodeName multiaddress (peersURL ip port) tr
  = (postAnswer (http_do W tr (postPeerRequest W ip port multiaddress myNodeName)),
     (tr ++ [EvHttp (postPeerRequest W ip port multiaddress myNodeName)])%list).
Proof.
  intros Hurl. unfold establishPeering, NewRequest. rewrite Hurl.
  unfold Header_Add; cbn [ReqMethod ReqURL ReqBody ReqHeader app].
  fold (postPeerRequest W ip port multiaddress myNodeName).
  run. unfold postAnswer.
  destruct (http_do W tr _) as [res|err]; [|reflexivity].
  now destruct (StatusCode res =? 200)%Z.
Qed.

(** ** The scan of the peer list *)

Lemma rangePeers_skip ip pre rest tr :
  Forall (fun q => hasAlias myNodeName q = false) pre ->
  rangePeers W myNodeName multiaddress ip port (pre ++ rest)%list tr
  = rangePeers W myNodeName multiaddress ip port rest tr.
Proof.
  induction 1 as [|q pre Hq _ IH]; [reflexivity|].
  cbn [app rangePeers]. unfold hasAlias in Hq.
  destruct (as_string (q !! "alias")) as [alias|]; [|exact IH].
  rewrite Hq. exact IH.
Qed.

(** A record of the alias whose address is the desired one ends the cycle. *)
Lemma rangePeers_converged ip p rest tr :
  hasAlias myNodeName p = true ->
  reconstructedAddress p = Some multiaddress ->
  rangePeers W myNodeName multiaddress ip port (p :: rest) tr = (Some true, tr).
Proof.
  unfold hasAlias, reconstructedAddress. intros Ha Hr. cbn [rangePeers].
  destruct (as_string (p !! "alias")) as [alias|]; [|discriminate].
  rewrite Ha. cbn [negb].
  destruct (getMultiaddressFromPeer p) as [a|]; [|discriminate].
  destruct (as_string (p !! "id")) as [i|]; [|discriminate].
  injection Hr as ->. now rewrite String.eqb_refl.
Qed.

(** A record of the alias with a field missing ends the cycle in failure. *)
Lemma rangePeers_incomplete ip p rest tr :
  hasAlias myNodeName p = true ->
  reconstructedAddress p = None ->
  rangePeers W myNodeName multiaddress ip port (p :: rest) tr = (Some false, tr).
Proof.
  unfold hasAlias, reconstructedAddress. intros Ha Hr. cbn [rangePeers].
  destruct (as_string (p !! "alias")) as [alias|]; [|discriminate].
  rewrite Ha. cbn [negb].
  destruct (getMultiaddressFromPeer p) as [a|]; [|reflexivity].
  destruct (as_string (p !! "id")) as [i|]; [discriminate|reflexivity].
Qed.

(** A record of the alias with another address is deleted by its id; the
    scan goes on when the answer is 204 and the cycle fails otherwise. *)
Lemma rangePeers_stale ip p a i rest tr :
  hasAlias myNodeName p = true ->
  getMultiaddressFromPeer p = Some a ->
  as_string (p !! "id") = Some i ->
  a ++ "/p2p/" ++ i <> multiaddress ->
  url_parses W (peerURL ip port i) = true ->
  rangePeers W myNodeName multiaddress ip port (p :: rest) tr
  = if deleted (http_do W tr (deletePeerRequest ip port i))
    then rangePeers W myNodeName multiaddress ip port rest
           (tr ++ [EvHttp (deletePeerRequest ip port i)])%list
    else (Some false, (tr ++ [EvHttp (deletePeerRequest ip port i)])%list).
Proof.
  unfold hasAlias. intros Ha Hm Hi Hne Hurl. cbn [rangePeers].
  destruct (as_string (p !! "alias")) as [alias|]; [|discriminate].
  rewrite Ha, Hm, Hi. cbn [negb].
  apply eqb_false_iff_neq in Hne. rewrite Hne.
  unfold NewRequest. rewrite Hurl. fold (deletePeerRequest ip port i).
  run. unfold deleted.
  destruct (http_do W tr _) as [res|err]; [|reflexivity].
  now destruct (StatusCode res =? 204)%Z.
Qed.

(** ** From the List call to the scan *)

Lemma tryPeering_listed tr ip peers :
  Listed W mainNodeName iotaHornetSelector iotaHornetNs port tr ip peers ->
  cycle tr
  = let scan := rangePeers W myNodeName multiaddress ip port peers
                  (tr ++ [lookup; EvHttp (getPeersRequest ip port)])%list in
    match fst scan with
    | Some b => (b, snd scan)
    | None => establishPeering W myNodeName multiaddress (peersURL ip port) (snd scan)
    end.
Proof.
  intros [Hpods Hip Hurl (bodyBytes & Hget & Hjson)].
  unfold tryPeering. run. rewrite Hpods. cbn.
  apply eqb_false_iff_neq in Hip. rewrite Hip.
  unfold NewRequest. rewrite Hurl.
  unfold Header_Add; cbn [ReqMethod ReqURL ReqBody ReqHeader app].
  fold (getPeersRequest ip port). run.
  unfold podLookup in Hget. rewrite Hget. cbn. rewrite Hjson.
  rewrite <- app_assoc. cbn [app]. run.
  now destruct (fst (rangePeers _ _ _ _ _ _ _)).
Qed.

(** ** What a scan can add to the trace *)

Lemma deletesFor_nil ip peers : deletesFor myNodeName ip port peers [].
Proof. split; [cbn; lia|constructor]. Qed.

Lemma deletesFor_skip ip p rest dels :
  hasAlias myNodeName p = false ->
  deletesFor myNodeName ip port rest dels ->
  deletesFor myNodeName ip port (p :: rest) dels.
Proof.
  intros Hp [Hlen Hall]. split.
  - cbn [List.filter]. now rewrite Hp.
  - eapply List.Forall_impl; [|exact Hall].
    intros req (p0 & i & Hin & H1 & H2 & H3). exists p0, i. cbn; auto.
Qed.

Lemma deletesFor_cons ip p i rest dels :
  hasAlias myNodeName p = true ->
  as_string (p !! "id") = Some i ->
  deletesFor myNodeName ip port rest dels ->
  deletesFor myNodeName ip port (p :: rest) (deletePeerRequest ip port i :: dels).
Proof.
  intros Hp Hi [Hlen Hall]. split.
  - cbn [List.filter]. rewrite Hp. cbn [length]. lia.
  - constructor.
    + exists p, i. cbn; auto.
    + eapply List.Forall_impl; [|exact Hall].
      intros req (p0 & i0 & Hin & H1 & H2 & H3). exists p0, i0. cbn; auto.
Qed.

(** The scan adds DELETE calls only: at most one for each record of the
    alias, each addressed by the id of such a record. *)
Lemma rangePeers_trace ip peers : forall tr,
  exists dels,
    snd (rangePeers W myNodeName multiaddress ip port peers tr)
    = (tr ++ map EvHttp dels)%list
    /\ deletesFor myNodeName ip port peers dels.
Proof.
  induction peers as [|p rest IH]; intros tr.
  { exists []. cbn. rewrite app_nil_r. split; [reflexivity|apply deletesFor_nil]. }
  assert (Hskip : hasAlias myNodeName p = false ->
            exists dels,
              snd (rangePeers W myNodeName multiaddress ip port rest tr)
              = (tr ++ map EvHttp dels)%list
              /\ deletesFor myNodeName ip port (p :: rest) dels).
  { intros Hp. destruct (IH tr) as (dels & Htr & Hdels).
    exists dels. split; [exact Htr|now apply deletesFor_skip]. }
  assert (Hstop : exists dels,
            tr = (tr ++ map EvHttp dels)%list
            /\ deletesFor myNodeName ip port (p :: rest) dels).
  { exists []. cbn. rewrite app_nil_r. split; [reflexivity|apply deletesFor_nil]. }
  cbn [rangePeers].
  destruct (hasAlias myNodeName p) eqn:Hp.
  2: { unfold hasAlias in Hp.
       destruct (as_string (p !! "alias")); [rewrite Hp; cbn [negb]|];
         now apply Hskip. }
  assert (Hp' := Hp). unfold hasAlias in Hp.
  destruct (as_string (p !! "alias")) as [alias|]; [|discriminate].
  rewrite Hp. cbn [negb].
  destruct (getMultiaddressFromPeer p) as [a|]; [|exact Hstop].
  destruct (as_string (p !! "id")) as [i|] eqn:Hi; [|exact Hstop].
  destruct (String.eqb (a ++ "/p2p/" ++ i) multiaddress); [exact Hstop|].
  unfold NewRequest. destruct (url_parses W (peerURL ip port i)); [|exact Hstop].
  fold (deletePeerRequest ip port i). run.
  assert (Hone : exists dels,
            (tr ++ [EvHttp (deletePeerRequest ip port i)])%list
            = (tr ++ map EvHttp dels)%list
            /\ deletesFor myNodeName ip port (p :: rest) dels).
  { exists [deletePeerRequest ip port i]. split; [reflexivity|].
    apply deletesFor_cons; auto using deletesFor_nil. }
  destruct (http_do W tr _) as [res|err]; [|exact Hone].
  destruct (StatusCode res =? 204)%Z; cbn [negb]; [|exact Hone].
  destruct (IH (tr ++ [EvHttp (deletePeerRequest ip port i)])%list)
    as (dels & Htr & Hdels).
  exists (deletePeerRequest ip port i :: dels). cbn [map].
  rewrite Htr, <- app_assoc. split; [reflexivity|].
  now apply deletesFor_cons.
Qed.

Lemma deletes_not_post ip peers (dels : list Request) :
  deletesFor myNodeName ip port peers dels ->
  Forall notPost (map EvHttp dels).
Proof.
  intros [_ Hall]. apply List.Forall_map. eapply List.Forall_impl; [|exact Hall].
  intros req (p & i & _ & _ & _ & ->) req' [= <-]. discriminate.
Qed.

(** A cycle either ends without a POST, or ends in the create step. *)
Lemma cycle_shape tr :
  (exists evs, snd (cycle tr) = (tr ++ lookup :: evs)%list /\ Forall notPost evs)
  \/ (exists ip tr1,
        url_parses W (peersURL ip port) = true
        /\ cycle tr = establishPeering W myNodeName multiaddress (peersURL ip port) tr1).
Proof.
  assert (Hstop1 : forall b : bool,
            exists evs, snd (b, (tr ++ [lookup])%list) = (tr ++ lookup :: evs)%list
                        /\ Forall notPost evs).
  { intros b. exists []. split; [reflexivity|constructor]. }
  unfold tryPeering. run. fold lookup.
  destruct (list_pods W tr _ _) as [items|err]; [|left; apply Hstop1].
  destruct (negb (length items =? 1)%nat); [left; apply Hstop1|].
  destruct (items !! 0%nat) as [mainHornet|]; [|left; apply Hstop1].
  destruct (String.eqb (PodIP mainHornet) ""); [left; apply Hstop1|].
  unfold NewRequest.
  destruct (url_parses W (peersURL (PodIP mainHornet) port)) eqn:Hurl;
    [|left; apply Hstop1].
  unfold Header_Add; cbn [ReqMethod ReqURL ReqBody ReqHeader app].
  fold (getPeersRequest (PodIP mainHornet) port). run.
  set (get := getPeersRequest (PodIP mainHornet) port).
  assert (Hstop2 : forall b : bool,
            exists evs,
              snd (b, ((tr ++ [lookup]) ++ [EvHttp get])%list)
              = (tr ++ lookup :: evs)%list
              /\ Forall notPost evs).
  { intros b. exists [EvHttp get]. cbn [snd]. rewrite <- app_assoc.
    split; [reflexivity|]. constructor; [|constructor].
    intros req [= <-]. discriminate. }
  destruct (http_do W _ get) as [res|err]; [|left; apply Hstop2].
  destruct (negb (StatusCode res =? 200)%Z); [left; apply Hstop2|].
  destruct (Body res) as [bodyBytes|err]; [|left; apply Hstop2].
  destruct (json_unmarshal_peers W bodyBytes) as [peers|err]; [|left; apply Hstop2].
  run.
  destruct (rangePeers_trace (PodIP mainHornet) peers
              ((tr ++ [lookup]) ++ [EvHttp get])%list) as (dels & Htr & Hall).
  destruct (fst (rangePeers _ _ _ _ _ _ _)) as [b|].
  - left. exists (EvHttp get :: map EvHttp dels). cbn [snd]. rewrite Htr.
    rewrite <- !app_assoc. split; [reflexivity|].
    constructor; [intros req [= <-]; discriminate|].
    eapply deletes_not_post, Hall.
  - right. eexists _, _. split; [exact Hurl|reflexivity].
Qed.

(** ** Properties of one cycle *)

Lemma reconstructedAddress_None p :
  getMultiaddressFromPeer p = None \/ as_string (p !! "id") = None ->
  reconstructedAddress p = None.
Proof.
  unfold reconstructedAddress. intros [-> | ->]; [reflexivity|].
  now destruct (getMultiaddressFromPeer p).
Qed.

(** C1, amended.  When the List call gives a peer list in which the first
    record carrying the desired alias has a reconstructed address (first
    advertised address, ["/p2p/"], record id) equal to the desired canonical
    address, the cycle makes the directory lookup and the GET and nothing
    else, so no POST and no DELETE, and returns [true]. *)
Theorem converged_cycle_mutates_nothing tr ip pre p post :
  Listed W mainNodeName iotaHornetSelector iotaHornetNs port tr ip
    (pre ++ p :: post)%list ->
  Forall (fun q => hasAlias myNodeName q = false) pre ->
  hasAlias myNodeName p = true ->
  reconstructedAddress p = Some multiaddress ->
  cycle tr = (true, (tr ++ [lookup; EvHttp (getPeersRequest ip port)])%list)
  /\ mutatingCalls (snd (cycle tr)) = mutatingCalls tr.
Proof.
  intros Hl Hpre Hp Hr.
  assert (Hrun : cycle tr
                 = (true, (tr ++ [lookup; EvHttp (getPeersRequest ip port)])%list)).
  { rewrite (tryPeering_listed _ _ _ Hl). cbv zeta.
    rewrite rangePeers_skip by exact Hpre.
    now rewrite rangePeers_converged. }
  split; [exact Hrun|].
  rewrite Hrun. cbn [snd]. rewrite mutatingCalls_app. cbn. apply app_nil_r.
Qed.

(** C2, amended.  When the List call gives a peer list with exactly one
    record of the desired alias, and that record's reconstructed address
    differs from the desired one, the cycle sends one DELETE addressed by
    the record's id (its URL being one that parses).  When the DELETE is
    answered 204 it then sends one POST of the desired address and alias,
    and returns [true] exactly when the POST is answered 200.  When the
    DELETE is not answered 204 no POST is sent and the cycle returns
    [false]. *)
Theorem stale_record_is_deleted_then_created tr ip pre p post a i :
  Listed W mainNodeName iotaHornetSelector iotaHornetNs port tr ip
    (pre ++ p :: post)%list ->
  Forall (fun q => hasAlias myNodeName q = false) pre ->
  Forall (fun q => hasAlias myNodeName q = false) post ->
  hasAlias myNodeName p = true ->
  getMultiaddressFromPeer p = Some a ->
  as_string (p !! "id") = Some i ->
  a ++ "/p2p/" ++ i <> multiaddress ->
  url_parses W (peerURL ip port i) = true ->
  let listed := (tr ++ [lookup; EvHttp (getPeersRequest ip port)])%list in
  let del := deletePeerRequest ip port i in
  let create := postPeerRequest W ip port multiaddress myNodeName in
  cycle tr
  = if deleted (http_do W listed del)
    then (postAnswer (http_do W (listed ++ [EvHttp del])%list create),
          (listed ++ [EvHttp del; EvHttp create])%list)
    else (false, (listed ++ [EvHttp del])%list).
Proof.
  intros Hl Hpre Hpost Hp Ha Hi Hne Hurl listed del create.
  rewrite (tryPeering_listed _ _ _ Hl). cbv zeta.
  rewrite rangePeers_skip by exact Hpre.
  rewrite (rangePeers_stale ip p a i) by assumption.
  fold listed del.
  destruct (deleted (http_do W listed del)); [|reflexivity].
  rewrite <- (app_nil_r post), rangePeers_skip by exact Hpost.
  cbn [rangePeers mret fst snd].
  rewrite establishPeering_run by apply Hl.
  fold create. now rewrite <- app_assoc.
Qed.


(** C4, amended.  When the first record carrying the desired alias lacks a
    required field (no string id, or no multiAddress list with a string
    first element), the cycle stops there: it returns [false] and sends
    neither a DELETE nor a POST. *)
Theorem incomplete_record_aborts_cycle tr ip pre p post :
  Listed W mainNodeName iotaHornetSelector iotaHornetNs port tr ip
    (pre ++ p :: post)%list ->
  Forall (fun q => hasAlias myNodeName q = false) pre ->
  hasAlias myNodeName p = true ->
  getMultiaddressFromPeer p = None \/ as_string (p !! "id") = None ->
  cycle tr = (false, (tr ++ [lookup; EvHttp (getPeersRequest ip port)])%list)
  /\ mutatingCalls (snd (cycle tr)) = mutatingCalls tr.
Proof.
  intros Hl Hpre Hp Hmiss.
  assert (Hrun : cycle tr
                 = (false, (tr ++ [lookup; EvHttp (getPeersRequest ip port)])%list)).
  { rewrite (tryPeering_listed _ _ _ Hl). cbv zeta.
    rewrite rangePeers_skip by exact Hpre.
    now rewrite rangePeers_incomplete by auto using reconstructedAddress_None. }
  split; [exact Hrun|].
  rewrite Hrun. cbn [snd]. rewrite mutatingCalls_app. cbn. apply app_nil_r.
Qed.

(** C5, amended.  When the last call of a cycle is a POST, the cycle
    returns [true] if the POST is answered with status 200 and [false] for
    every other answer: any other status, 2xx or not, and a transport
    failure. *)
Theorem create_step_succeeds_on_200_only tr b tr0 req :
  cycle tr = (b, (tr0 ++ [EvHttp req])%list) ->
  ReqMethod req = POST ->
  b = match http_do W tr0 req with
      | Ok res => (StatusCode res =? 200)%Z
      | Err _ => false
      end.
Proof.
  intros Hrun Hpost.
  destruct (cycle_shape tr) as [(evs & Htr & Hall) | (ip & tr1 & Hurl & Hest)].
  - exfalso. rewrite Hrun in Htr. cbn [snd] in Htr. symmetry in Htr.
    refine (last_event_not_post tr (lookup :: evs) tr0 req _ _ Htr Hpost);
      [discriminate|].
    constructor; [|exact Hall]. intros req' [=].
  - rewrite Hest, establishPeering_run in Hrun by exact Hurl.
    injection Hrun as Hb Htr. apply app_inj_tail in Htr as [<- [= <-]].
    now rewrite <- Hb.
Qed.

(** C6.  When the directory lookup gives no pod or more than one pod, or a
    single pod whose IP is empty, the cycle returns [false] after the
    lookup, without any HTTP call. *)
Theorem unresolved_main_pod_fails_without_http tr items :
  list_pods W tr iotaHornetNs
    {| LabelSelector := iotaHornetSelector;
       FieldSelector := "spec.nodeName=" ++ mainNodeName |} = Ok items ->
  (length items = 0 \/ 1 < length items
   \/ exists pod, items = [pod] /\ PodIP pod = "")%nat ->
  cycle tr = (false, (tr ++ [lookup])%list)
  /\ requests (snd (cycle tr)) = requests tr.
Proof.
  intros Hpods Hcount.
  assert (Hrun : cycle tr = (false, (tr ++ [lookup])%list)).
  { unfold tryPeering. run. rewrite Hpods.
    destruct Hcount as [H0 | [Hmany | (pod & -> & Hip)]].
    - destruct items; [reflexivity|discriminate].
    - destruct items as [|x [|y items]]; cbn in Hmany; try lia. reflexivity.
    - cbn. now rewrite Hip. }
  split; [exact Hrun|].
  rewrite Hrun. cbn [snd]. rewrite requests_app. cbn. apply app_nil_r.
Qed.

End Cycle.

(** ** The address builder *)

Lemma append_String (a : ascii) (p s : string) : String a p ++ s = String a (p ++ s).
Proof. reflexivity. Qed.

Lemma trimPrefix_app (p s : string) : trimPrefix p (p ++ s) = Some s.
Proof.
  induction p as [|a p IH]; [reflexivity|].
  rewrite append_String. cbn [trimPrefix]. now rewrite Ascii.eqb_refl.
Qed.

Lemma cut_app (a b : string) :
  noSlash a = true -> cut "/" (a ++ String "/" b) = Some (a, b).
Proof.
  unfold noSlash. induction a as [|c a IH]; intros Ha; [reflexivity|].
  cbn [chars forallb] in Ha. rewrite append_String. cbn [cut].
  apply andb_prop in Ha as [Hc Ha].
  destruct (Ascii.eqb c "/"); [discriminate|]. now rewrite IH.
Qed.

Lemma string_of_uint_noSlash d : noSlash (NilEmpty.string_of_uint d) = true.
Proof. unfold noSlash. induction d; cbn; auto. Qed.

Lemma fmt_d_noSlash n : noSlash (fmt_d n) = true.
Proof.
  unfold fmt_d. destruct (Z.to_int n) as [d|d]; cbn [NilEmpty.string_of_int].
  - apply string_of_uint_noSlash.
  - unfold noSlash. cbn. apply string_of_uint_noSlash.
Qed.

Lemma parse_d_fmt_d n : parse_d (fmt_d n) = Some n.
Proof. unfold parse_d, fmt_d. now rewrite NilEmpty.isi, DecimalZ.of_to. Qed.

(** Every character of [s] is the separator or lies in a part of the split. *)
Lemma split_chars sep s c :
  In c (chars s) ->
  c = sep \/ exists part, In part (split sep s) /\ In c (chars part).
Proof.
  induction s as [|a s IH]; [intros []|].
  cbn [chars split]. intros [<- | Hin].
  - destruct (Ascii.eqb_spec a sep) as [->|_]; [now left|right].
    destruct (split sep s) as [|part parts];
      eexists; (split; [left; reflexivity|now left]).
  - destruct (IH Hin) as [-> | (part & Hpart & Hc)]; [now left|right].
    destruct (Ascii.eqb a sep).
    + exists part. split; [now right|exact Hc].
    + destruct (split sep s) as [|part0 parts]; [destruct Hpart|].
      destruct Hpart as [<- | Hpart].
      * exists (String a part0). split; [now left|now right].
      * exists part. split; [now right|exact Hc].
Qed.

Lemma isOctet_digits s c : isOctet s = true -> In c (chars s) -> isDigit c = true.
Proof.
  unfold isOctet. intros H Hin. apply andb_prop in H as [H _].
  now apply (proj1 (forallb_forall _ _) H).
Qed.

Lemma isIPv4_noSlash ip : isIPv4 ip = true -> noSlash ip = true.
Proof.
  unfold isIPv4, noSlash. intros Hip. apply forallb_forall. intros c Hc.
  destruct (split_chars "." ip c Hc) as [-> | (part & Hpart & Hin)];
    [reflexivity|].
  assert (Hd : isDigit c = true).
  { destruct (split "." ip) as [|x1 [|x2 [|x3 [|x4 [|? ?]]]]]; try discriminate.
    apply andb_prop in Hip as [Hip H4]. apply andb_prop in Hip as [Hip H3].
    apply andb_prop in Hip as [H1 H2].
    cbn in Hpart. destruct Hpart as [<- | [<- | [<- | [<- | []]]]];
      eauto using isOctet_digits. }
  destruct (Ascii.eqb_spec c "/") as [->|_]; [discriminate Hd|reflexivity].
Qed.

(** The reader inverts the formatter whenever the host part has no slash. *)
Lemma parse_sprintf ip p s :
  noSlash ip = true ->
  parseMultiaddress (sprintfMultiaddress ip p s) = Some (ip, p, s).
Proof.
  intros Hip. unfold parseMultiaddress, sprintfMultiaddress.
  rewrite trimPrefix_app.
  change ("/tcp/" ++ fmt_d p ++ "/p2p/" ++ s)
    with (String "/" ("tcp/" ++ fmt_d p ++ "/p2p/" ++ s)).
  rewrite (cut_app ip _ Hip), trimPrefix_app.
  change ("/p2p/" ++ s) with (String "/" ("p2p/" ++ s)).
  rewrite (cut_app _ _ (fmt_d_noSlash p)), trimPrefix_app.
  now rewrite parse_d_fmt_d.
Qed.

(** Two addresses with hosts free of slashes are equal only when their three
    components are: the form is unambiguous. *)
Lemma sprintfMultiaddress_inj ip p s ip' p' s' :
  noSlash ip = true ->
  noSlash ip' = true ->
  sprintfMultiaddress ip p s = sprintfMultiaddress ip' p' s' ->
  ip = ip' /\ p = p' /\ s = s'.
Proof.
  intros Hip Hip' Heq. apply (f_equal parseMultiaddress) in Heq.
  rewrite !parse_sprintf in Heq by assumption.
  now injection Heq as -> -> ->.
Qed.

(** C9.  For every valid IPv4 string, positive port and peer ID, the string
    [/ip4/<ip>/tcp/<port>/p2p/<peerID>] the address builder formats is read
    back, by splitting on the fixed delimiters, into the same three
    components. *)
Theorem multiaddress_round_trip (ip : string) (p : Z) (s : string) :
  isIPv4 ip = true ->
  0 < p ->
  parseMultiaddress (sprintfMultiaddress ip p s) = Some (ip, p, s).
Proof. intros Hip _. apply parse_sprintf, isIPv4_noSlash, Hip. Qed.


(** The file-wait loop ends as soon as the file is there: when it appears at
    poll [k], any fuel above [k] leaves the loop. *)
Lemma waitForFile_found (W : World) (path : string) (k : nat) :
  forall (fuel : nat) (tr : list Event),
    (forall j, (j < k)%nat -> stat_not_exist W (polls path j tr) path = true) ->
    stat_not_exist W (polls path k tr) path = false ->
    (k < fuel)%nat ->
    waitForFile W path fuel tr = (true, (polls path k tr ++ [EvStat path])%list).
Proof.
  induction k as [|k IH]; intros fuel tr Hbefore Hat Hfuel;
    (destruct fuel as [|fuel]; [lia|]); cbn [waitForFile polls] in *; run.
  - now rewrite Hat.
  - assert (H0 := Hbefore 0%nat ltac:(lia)). cbn [polls] in H0.
    rewrite H0. cbn [negb]. run.
    rewrite <- app_assoc. cbn [app].
    apply IH; [|exact Hat|lia].
    intros j Hj. apply (Hbefore (S j)). lia.
Qed.

(** ** Start-up *)

Lemma sleepForever_run (fuel : nat) : forall tr,
  sleepForever fuel tr = (Running, (tr ++ repeat (EvSleep (10000 * Hour)) fuel)%list).
Proof.
  induction fuel as [|fuel IH]; intros tr; cbn [sleepForever repeat].
  - unfold mret. now rewrite app_nil_r.
  - run. rewrite IH, <- app_assoc. reflexivity.
Qed.

(** The scheduler loop has no exit. *)
Lemma schedulerLoop_runs (W : World) (flags : Flags) (myNodeName multiaddress : string)
    (fuel : nat) : forall tr,
  fst (schedulerLoop W flags myNodeName multiaddress fuel tr) = Running.
Proof.
  induction fuel as [|fuel IH]; intros tr; [reflexivity|].
  cbn [schedulerLoop]. run. apply IH.
Qed.

(** A missing required flag ends the process with status 1 before anything
    else is done. *)
Lemma missing_flag_exits (W : World) (flags : Flags) (fuel : nat) (tr : list Event) :
  flagsValid flags = false ->
  main W flags fuel tr = (Exited 1, tr).
Proof.
  unfold flagsValid, main. intros H.
  destruct (String.eqb (mainNodeName flags) ""); [reflexivity|].
  destruct (String.eqb (iotaHornetSelector flags) ""); [reflexivity|].
  destruct (String.eqb (iotaHornetNs flags) ""); [reflexivity|].
  destruct (String.eqb (privateKeyFile flags) ""); [reflexivity|discriminate].
Qed.

(** C10, amended.  When the main-node name equals the local node's name, the
    process makes no call but sleeps: no client is created, no key file is
    looked for or read, no directory lookup and no HTTP call is made, however
    long it runs.  With the four required flags present it stays in the
    10000-hour sleep loop for ever; with one of them missing it has exited
    with status 1 before that. *)
Theorem main_node_only_sleeps (W : World) (flags : Flags) (fuel : nat) (tr : list Event) :
  mainNodeName flags = MyNodeName (fst (env_Parse W)) ->
  main W flags fuel tr
  = if flagsValid flags
    then (Running, (tr ++ repeat (EvSleep (10000 * Hour)) fuel)%list)
    else (Exited 1, tr).
Proof.
  intros Hmain. destruct (flagsValid flags) eqn:Hflags;
    [|now apply missing_flag_exits].
  unfold flagsValid in Hflags. unfold main.
  destruct (String.eqb (mainNodeName flags) ""); [discriminate|].
  destruct (String.eqb (iotaHornetSelector flags) ""); [discriminate|].
  destruct (String.eqb (iotaHornetNs flags) ""); [discriminate|].
  destruct (String.eqb (privateKeyFile flags) ""); [discriminate|].
  rewrite Hmain, String.eqb_refl. apply sleepForever_run.
Qed.

(** * The scenarios *)

Section Scenarios.

Import Scenario.

Lemma scenario_listed peers deleteStatus postStatus parsed :
  Listed (world mainPod peers deleteStatus postStatus parsed)
    "node-a" "app=hornet" "iota" 14265 [] "10.0.0.1" peers.
Proof.
  constructor; [reflexivity|discriminate|reflexivity|].
  exists "peers". split; reflexivity.
Qed.

(** The second end-to-end scenario of the specification: the record in
    place is the desired one. *)
Lemma converged_cycle_mutates_nothing_witness :
  cycle converged = (true, ([] ++ [lookup; EvHttp get])%list)
  /\ mutatingCalls (snd (cycle converged)) = mutatingCalls [].
Proof.
  apply (converged_cycle_mutates_nothing converged myNodeName "node-a"
           "app=hornet" "iota" multiaddress 14265 [] "10.0.0.1" [] fresh []).
  - apply scenario_listed.
  - constructor.
  - vm_compute; reflexivity.
  - vm_compute; reflexivity.
Defined.

(** C1 as stated fails: the list holds a record of the alias with the
    desired address, behind a stale one, and the cycle sends a DELETE. *)
Lemma converged_record_behind_stale_one :
  Listed staleThenFresh "node-a" "app=hornet" "iota" 14265 [] "10.0.0.1"
    [stale; fresh]
  /\ In fresh [stale; fresh]
  /\ hasAlias myNodeName fresh = true
  /\ reconstructedAddress fresh = Some multiaddress
  /\ cycle staleThenFresh = (true, [lookup; EvHttp get; EvHttp (delete "Qm999")])
  /\ mutatingCalls (snd (cycle staleThenFresh)) <> [].
Proof.
  split; [apply scenario_listed|].
  split; [right; left; reflexivity|].
  repeat split; try (vm_compute; reflexivity).
  vm_compute. discriminate.
Qed.

(** The first end-to-end scenario of the specification: DELETE
    [/peers/Qm999], then POST of the desired address and alias. *)
Lemma stale_record_is_deleted_then_created_witness :
  cycle replaced
  = (true, [lookup; EvHttp get; EvHttp (delete "Qm999"); EvHttp (create replaced)]).
Proof.
  refine (eq_trans
            (stale_record_is_deleted_then_created replaced myNodeName "node-a"
               "app=hornet" "iota" multiaddress 14265 [] "10.0.0.1" [] stale []
               "/ip4/10.0.0.9/tcp/15600" "Qm999" _ _ _ _ _ _ _ _) _).
  - apply scenario_listed.
  - constructor.
  - constructor.
  - vm_compute; reflexivity.
  - vm_compute; reflexivity.
  - vm_compute; reflexivity.
  - vm_compute. discriminate.
  - reflexivity.
  - vm_compute; reflexivity.
Defined.

(** C2 as stated fails: one stale record, the DELETE answered 204, and the
    cycle returns [false] because the POST is answered 500. *)
Lemma replaced_record_with_refused_create :
  Listed createRefused "node-a" "app=hornet" "iota" 14265 [] "10.0.0.1" [stale]
  /\ hasAlias myNodeName stale = true
  /\ reconstructedAddress stale = Some "/ip4/10.0.0.9/tcp/15600/p2p/Qm999"
  /\ http_do createRefused [lookup; EvHttp get] (delete "Qm999")
     = Ok {| StatusCode := 204; Body := Ok "" |}
  /\ cycle createRefused
     = (false, [lookup; EvHttp get; EvHttp (delete "Qm999");
                EvHttp (create createRefused)]).
Proof.
  split; [apply scenario_listed|].
  repeat split; vm_compute; reflexivity.
Qed.



Lemma incomplete_record_aborts_cycle_witness :
  cycle recordWithoutId = (false, ([] ++ [lookup; EvHttp get])%list)
  /\ mutatingCalls (snd (cycle recordWithoutId)) = mutatingCalls [].
Proof.
  apply (incomplete_record_aborts_cycle recordWithoutId myNodeName "node-a"
           "app=hornet" "iota" multiaddress 14265 [] "10.0.0.1" [] noId []).
  - apply scenario_listed.
  - constructor.
  - vm_compute; reflexivity.
  - right. vm_compute; reflexivity.
Defined.

(** C4 as stated fails: the record of the alias has no id, and the cycle
    returns [false] with neither a DELETE nor a POST. *)
Lemma record_without_id_is_not_deleted :
  Listed recordWithoutId "node-a" "app=hornet" "iota" 14265 [] "10.0.0.1" [noId]
  /\ hasAlias myNodeName noId = true
  /\ as_string (noId !! "id") = None
  /\ cycle recordWithoutId = (false, [lookup; EvHttp get]).
Proof.
  split; [apply scenario_listed|].
  repeat split; vm_compute; reflexivity.
Qed.

Lemma create_step_succeeds_on_200_only_witness :
  true = match http_do emptyTable [lookup; EvHttp get] (create emptyTable) with
         | Ok res => (StatusCode res =? 200)%Z
         | Err _ => false
         end.
Proof.
  apply (create_step_succeeds_on_200_only emptyTable myNodeName "node-a"
           "app=hornet" "iota" multiaddress 14265 []).
  - vm_compute; reflexivity.
  - reflexivity.
Defined.

(** C5 as stated fails: the POST is answered 201, a 2xx status, and the
    cycle returns [false]. *)
Lemma create_answered_201_fails :
  http_do createAnswered201 [lookup; EvHttp get] (create createAnswered201)
  = Ok {| StatusCode := 201; Body := Ok "" |}
  /\ (200 <= 201 < 300)
  /\ cycle createAnswered201
     = (false, [lookup; EvHttp get; EvHttp (create createAnswered201)]).
Proof. repeat split; vm_compute; congruence. Qed.

Lemma unresolved_main_pod_fails_without_http_witness :
  cycle noPod = (false, ([] ++ [lookup])%list)
  /\ requests (snd (cycle noPod)) = requests [].
Proof.
  apply (unresolved_main_pod_fails_without_http noPod myNodeName "node-a"
           "app=hornet" "iota" multiaddress 14265 [] []).
  - reflexivity.
  - left. reflexivity.
Defined.

(** C7: the code at the failing input.  [MY_NODE_NAME] is not set and
    [env.Parse] reports it, the flags are all given; the process does not
    exit: it creates its clients, loads the key and runs the scheduler
    loop, posting a record with an empty alias. *)
Theorem unset_node_name_does_not_stop_startup :
  env_Parse nodeNameUnset
  = ({| MyNodeName := ""; MyIP := "10.0.0.5" |},
     Some "env: environment variable MY_NODE_NAME should not be empty")
  /\ flagsValid flags = true
  /\ (forall fuel, fst (main nodeNameUnset flags fuel []) = Running)
  /\ calls POST (snd (main nodeNameUnset flags 1 []))
     = [postPeerRequest nodeNameUnset "10.0.0.1" 14265 multiaddress ""].
Proof.
  split; [reflexivity|]. split; [reflexivity|]. split; [|vm_compute; reflexivity].
  intros [|fuel]; [reflexivity|].
  change (main nodeNameUnset flags (S fuel) [])
    with (schedulerLoop nodeNameUnset flags "" multiaddress (S fuel)
            [EvInClusterConfig; EvNewForConfig;
             EvStat "/app/p2pstore/identity.key";
             EvReadFile "/app/p2pstore/identity.key"]).
  apply schedulerLoop_runs.
Qed.


Lemma multiaddress_round_trip_witness :
  parseMultiaddress (sprintfMultiaddress "10.0.0.5" 15600 "Qm123")
  = Some ("10.0.0.5", 15600, "Qm123").
Proof.
  apply (multiaddress_round_trip "10.0.0.5" 15600 "Qm123").
  - vm_compute; reflexivity.
  - lia.
Defined.

Lemma main_node_only_sleeps_witness :
  main onMainNode flags 2 []
  = (Running, [EvSleep (10000 * Hour); EvSleep (10000 * Hour)]).
Proof.
  refine (eq_trans (main_node_only_sleeps onMainNode flags 2 [] _) _);
    reflexivity.
Defined.

(** C10 as stated fails: the main-node name is the local node's name and a
    required flag is missing; the process exits with status 1 and never
    sleeps. *)
Lemma main_node_with_missing_flag_exits :
  mainNodeName flagsNoSelector = MyNodeName (fst (env_Parse onMainNode))
  /\ main onMainNode flagsNoSelector 2 [] = (Exited 1, []).
Proof. split; reflexivity. Qed.

End Scenarios.

(** * Further properties of the cycle *)

Section CycleCases.

Context (W : World).
Context (myNodeName mainNodeName iotaHornetSelector iotaHornetNs multiaddress : string).
Context (port : Z).

Local Abbreviation lookup := (podLookup iotaHornetSelector iotaHornetNs mainNodeName).
Local Abbreviation cycle :=
  (tryPeering W myNodeName mainNodeName iotaHornetSelector iotaHornetNs multiaddress port).
Local Abbreviation options :=
  {| LabelSelector := iotaHornetSelector;
     FieldSelector := "spec.nodeName=" ++ mainNodeName |}.

(** The directory lookup found exactly the pod [ip], and the GET to it can
    be built. *)
#[warnings="-inconsistent-scopes"]
Local Abbreviation resolved tr ip :=
  (list_pods W tr iotaHornetNs options = Ok [{| PodIP := ip |}]
   /\ ip <> ""
   /\ url_parses W (peersURL ip port) = true).

Lemma listAnswer_Listed tr ip peers :
  resolved tr ip ->
  listAnswer W (http_do W (tr ++ [lookup])%list (getPeersRequest ip port)) = Some peers ->
  Listed W mainNodeName iotaHornetSelector iotaHornetNs port tr ip peers.
Proof.
  intros (Hpods & Hip & Hurl) Hans. unfold listAnswer in Hans.
  destruct (http_do W _ _) as [[status body]|err] eqn:Hget; [|discriminate].
  cbn [StatusCode Body] in Hans.
  destruct (Z.eqb_spec status 200) as [->|_]; [|discriminate]. cbn [negb] in Hans.
  destruct body as [bodyBytes|err]; [|discriminate].
  destruct (json_unmarshal_peers W bodyBytes) as [peers'|err] eqn:Hjson;
    [|discriminate].
  injection Hans as ->. constructor; try assumption.
  exists bodyBytes. split; assumption.
Qed.

(** Where a cycle can stop before the scan of the list. *)
Lemma tryPeering_unlisted tr ip :
  resolved tr ip ->
  listAnswer W (http_do W (tr ++ [lookup])%list (getPeersRequest ip port)) = None ->
  cycle tr = (false, (tr ++ [lookup; EvHttp (getPeersRequest ip port)])%list).
Proof.
  intros (Hpods & Hip & Hurl) Hans.
  unfold tryPeering. run. rewrite Hpods. cbn.
  apply eqb_false_iff_neq in Hip. rewrite Hip.
  unfold NewRequest. rewrite Hurl.
  unfold Header_Add; cbn [ReqMethod ReqURL ReqBody ReqHeader app].
  fold (getPeersRequest ip port). run. fold lookup.
  rewrite <- app_assoc. cbn [app].
  unfold listAnswer in Hans.
  destruct (http_do W _ _) as [res|err]; [|reflexivity].
  destruct (negb (StatusCode res =? 200)%Z); [reflexivity|].
  destruct (Body res) as [bodyBytes|err]; [|reflexivity].
  destruct (json_unmarshal_peers W bodyBytes); [discriminate|reflexivity].
Qed.

Lemma tryPeering_unresolved tr :
  (forall ip, ~ resolved tr ip) ->
  cycle tr = (false, (tr ++ [lookup])%list).
Proof.
  intros Hno. unfold tryPeering. run. fold lookup.
  destruct (list_pods W tr _ _) as [items|err] eqn:Hpods; [|reflexivity].
  destruct items as [|[ip] [|pod items]]; try reflexivity.
  cbn. destruct (String.eqb_spec ip "") as [->|Hip]; [reflexivity|].
  unfold NewRequest.
  destruct (url_parses W (peersURL ip port)) eqn:Hurl; [|reflexivity].
  destruct (Hno ip). auto.
Qed.

(** The three ways a cycle can go. *)
Lemma cycle_cases tr :
  cycle tr = (false, (tr ++ [lookup])%list)
  \/ exists ip,
       resolved tr ip
       /\ (cycle tr = (false, (tr ++ [lookup; EvHttp (getPeersRequest ip port)])%list)
           \/ exists peers,
                Listed W mainNodeName iotaHornetSelector iotaHornetNs port tr ip peers).
Proof.
  destruct (list_pods W tr iotaHornetNs options) as [items|err] eqn:Hpods.
  2: { left. apply tryPeering_unresolved. intros ip (H & _). congruence. }
  destruct items as [|[ip] [|pod items]].
  1, 3: left; apply tryPeering_unresolved; intros ip' (H & _); congruence.
  destruct (String.eqb_spec ip "") as [->|Hip].
  { left. apply tryPeering_unresolved. intros ip' (H & Hne & _).
    rewrite Hpods in H. injection H as <-. now apply Hne. }
  destruct (url_parses W (peersURL ip port)) eqn:Hurl.
  2: { left. apply tryPeering_unresolved. intros ip' (H & _ & Hu).
       rewrite Hpods in H. injection H as <-. congruence. }
  right. exists ip. split; [auto|].
  destruct (listAnswer W (http_do W (tr ++ [lookup])%list (getPeersRequest ip port)))
    as [peers|] eqn:Hans.
  - right. exists peers. now apply listAnswer_Listed.
  - left. now apply tryPeering_unlisted.
Qed.

(** ** The scan, record by record *)

(** What the scan can find in a record. *)
Lemma record_cases (p : PeerRecord) :
  hasAlias myNodeName p = false
  \/ (hasAlias myNodeName p = true /\ reconstructedAddress p = None)
  \/ (hasAlias myNodeName p = true /\ reconstructedAddress p = Some multiaddress)
  \/ (hasAlias myNodeName p = true
      /\ exists a i, getMultiaddressFromPeer p = Some a
                     /\ as_string (p !! "id") = Some i
                     /\ a ++ "/p2p/" ++ i <> multiaddress).
Proof.
  destruct (hasAlias myNodeName p); [right|now left].
  unfold reconstructedAddress.
  destruct (getMultiaddressFromPeer p) as [a|]; [|now left].
  destruct (as_string (p !! "id")) as [i|]; [|now left].
  right. destruct (String.eqb_spec (a ++ "/p2p/" ++ i) multiaddress) as [->|Hne].
  - now left.
  - right. split; [reflexivity|]. now exists a, i.
Qed.

Lemma rangePeers_other ip p rest tr :
  hasAlias myNodeName p = false ->
  rangePeers W myNodeName multiaddress ip port (p :: rest) tr
  = rangePeers W myNodeName multiaddress ip port rest tr.
Proof.
  intros Hp. apply (rangePeers_skip W myNodeName multiaddress port ip [p] rest tr).
  now constructor.
Qed.

(** A stale record whose DELETE cannot be built ends the cycle in failure. *)
Lemma rangePeers_unbuildable ip p a i rest tr :
  hasAlias myNodeName p = true ->
  getMultiaddressFromPeer p = Some a ->
  as_string (p !! "id") = Some i ->
  a ++ "/p2p/" ++ i <> multiaddress ->
  url_parses W (peerURL ip port i) = false ->
  rangePeers W myNodeName multiaddress ip port (p :: rest) tr = (Some false, tr).
Proof.
  unfold hasAlias. intros Ha Hm Hi Hne Hurl. cbn [rangePeers].
  destruct (as_string (p !! "alias")) as [alias|]; [|discriminate].
  rewrite Ha, Hm, Hi. cbn [negb].
  apply eqb_false_iff_neq in Hne. rewrite Hne.
  unfold NewRequest. now rewrite Hurl.
Qed.

(** The scan returns [true] only at a record of the alias that carries the
    desired address. *)
Lemma rangePeers_true ip peers : forall tr,
  fst (rangePeers W myNodeName multiaddress ip port peers tr) = Some true ->
  exists p, In p peers /\ hasAlias myNodeName p = true
            /\ reconstructedAddress p = Some multiaddress.
Proof.
  induction peers as [|p rest IH]; intros tr Htrue; [discriminate|].
  assert (Hrest : forall tr',
            fst (rangePeers W myNodeName multiaddress ip port rest tr') = Some true ->
            exists p0, In p0 (p :: rest) /\ hasAlias myNodeName p0 = true
                       /\ reconstructedAddress p0 = Some multiaddress).
  { intros tr' H. destruct (IH tr' H) as (p0 & Hin & H0). exists p0. cbn; auto. }
  destruct (record_cases p)
    as [Hp | [[Hp Hr] | [[Hp Hr] | (Hp & a & i & Ha & Hi & Hne)]]].
  - rewrite rangePeers_other in Htrue by exact Hp. eauto.
  - rewrite rangePeers_incomplete in Htrue by assumption. discriminate.
  - exists p. cbn; auto.
  - destruct (url_parses W (peerURL ip port i)) eqn:Hurl.
    + rewrite (rangePeers_stale W myNodeName multiaddress port ip p a i)
        in Htrue by assumption.
      destruct (deleted _); [eauto|discriminate].
    + rewrite (rangePeers_unbuildable ip p a i) in Htrue by assumption.
      discriminate.
Qed.

(** With a record of the alias that carries the desired address anywhere in
    the list, the scan never runs to the end of the list. *)
Lemma rangePeers_match_returns ip p peers : forall tr,
  In p peers ->
  hasAlias myNodeName p = true ->
  reconstructedAddress p = Some multiaddress ->
  fst (rangePeers W myNodeName multiaddress ip port peers tr) <> None.
Proof.
  induction peers as [|q rest IH]; intros tr Hin Hp Hr; [destruct Hin|].
  destruct (record_cases q)
    as [Hq | [[Hq Hqr] | [[Hq Hqr] | (Hq & a & i & Ha & Hi & Hne)]]].
  - rewrite rangePeers_other by exact Hq.
    destruct Hin as [-> | Hin]; [congruence|now apply IH].
  - now rewrite rangePeers_incomplete.
  - now rewrite rangePeers_converged.
  - assert (Hin' : In p rest).
    { destruct Hin as [-> | Hin]; [|exact Hin].
      unfold reconstructedAddress in Hr. rewrite Ha, Hi in Hr. congruence. }
    destruct (url_parses W (peerURL ip port i)) eqn:Hurl.
    + rewrite (rangePeers_stale W myNodeName multiaddress port ip q a i)
        by assumption.
      destruct (deleted _); [now apply IH|discriminate].
    + now rewrite (rangePeers_unbuildable ip q a i).
Qed.

Lemma calls_POST_deletes ip peers dels :
  deletesFor myNodeName ip port peers dels ->
  calls POST (map EvHttp dels) = [].
Proof.
  intros [_ Hall]. induction Hall as [|req dels (p & i & _ & _ & _ & ->) _ IH];
    [reflexivity|exact IH].
Qed.

(** ** What a cycle does, case by case *)

(** X1.  When no record of the list carries the desired alias, the cycle
    sends exactly one POST of the desired address and alias after the GET,
    no DELETE, and returns [true] exactly when the POST is answered 200. *)
Theorem cycle_without_record_creates_once tr ip peers :
  Listed W mainNodeName iotaHornetSelector iotaHornetNs port tr ip peers ->
  Forall (fun q => hasAlias myNodeName q = false) peers ->
  let listed := (tr ++ [lookup; EvHttp (getPeersRequest ip port)])%list in
  let create := postPeerRequest W ip port multiaddress myNodeName in
  cycle tr = (postAnswer (http_do W listed create), (listed ++ [EvHttp create])%list).
Proof.
  intros Hl Hnone listed create.
  rewrite (tryPeering_listed _ _ _ _ _ _ _ _ _ _ Hl). cbv zeta.
  rewrite <- (app_nil_r peers), rangePeers_skip by exact Hnone.
  cbn [rangePeers mret fst snd].
  now rewrite establishPeering_run by apply Hl.
Qed.

(** X2.  When some record of the list, wherever it stands, carries the
    desired alias and the desired address, the cycle sends no POST. *)
Theorem matching_record_prevents_create tr ip peers p :
  Listed W mainNodeName iotaHornetSelector iotaHornetNs port tr ip peers ->
  In p peers ->
  hasAlias myNodeName p = true ->
  reconstructedAddress p = Some multiaddress ->
  calls POST (snd (cycle tr)) = calls POST tr.
Proof.
  intros Hl Hin Hp Hr.
  rewrite (tryPeering_listed _ _ _ _ _ _ _ _ _ _ Hl). cbv zeta.
  set (listed := (tr ++ [lookup; EvHttp (getPeersRequest ip port)])%list).
  pose proof (rangePeers_match_returns ip p peers listed Hin Hp Hr) as Hsome.
  destruct (rangePeers_trace W myNodeName multiaddress port ip peers listed)
    as (dels & Htr & Hdels).
  destruct (fst (rangePeers _ _ _ _ _ _ _)) as [b|]; [|contradiction].
  cbn [snd]. rewrite Htr. unfold listed.
  rewrite !calls_app, (calls_POST_deletes _ _ _ Hdels).
  cbn. now rewrite !app_nil_r.
Qed.

(** X3.  A cycle returns [true] only after a List call that gave a peer
    list, and then only in two ways: a record of the list carries the desired
    alias and address, or the cycle's last call is the POST of the desired
    address and alias and it was answered 200. *)
Theorem successful_cycle_converged_or_created tr :
  fst (cycle tr) = true ->
  exists ip peers,
    Listed W mainNodeName iotaHornetSelector iotaHornetNs port tr ip peers
    /\ ((exists p, In p peers /\ hasAlias myNodeName p = true
                   /\ reconstructedAddress p = Some multiaddress)
        \/ (exists tr0 res,
              snd (cycle tr)
              = (tr0 ++ [EvHttp (postPeerRequest W ip port multiaddress myNodeName)])%list
              /\ http_do W tr0 (postPeerRequest W ip port multiaddress myNodeName) = Ok res
              /\ StatusCode res = 200)).
Proof.
  intros Htrue.
  destruct (cycle_cases tr) as [Hstop | (ip & _ & [Hstop | (peers & Hl)])];
    try (rewrite Hstop in Htrue; discriminate).
  exists ip, peers. split; [exact Hl|].
  rewrite (tryPeering_listed _ _ _ _ _ _ _ _ _ _ Hl) in Htrue |- *.
  cbv zeta in Htrue |- *.
  destruct (fst (rangePeers _ _ _ _ _ _ _)) as [b|] eqn:Hscan.
  - left. cbn [fst] in Htrue. subst b. eapply rangePeers_true, Hscan.
  - right. rewrite establishPeering_run in Htrue |- * by apply Hl.
    cbn [fst snd] in Htrue |- *. unfold postAnswer in Htrue.
    destruct (http_do W _ _) as [res|err] eqn:Hpost; [|discriminate].
    eexists _, res. split; [reflexivity|]. split; [exact Hpost|].
    now apply Z.eqb_eq.
Qed.


(** X5.  When the GET of the peer list fails (transport error, a status
    other than 200, a body that cannot be read or decoded), the cycle returns
    [false] right after the GET and changes nothing on the main node. *)
Theorem unlisted_cycle_fails_without_mutation tr ip :
  resolved tr ip ->
  listAnswer W (http_do W (tr ++ [lookup])%list (getPeersRequest ip port)) = None ->
  cycle tr = (false, (tr ++ [lookup; EvHttp (getPeersRequest ip port)])%list)
  /\ mutatingCalls (snd (cycle tr)) = mutatingCalls tr.
Proof.
  intros Hres Hans. rewrite (tryPeering_unlisted tr ip Hres Hans).
  split; [reflexivity|]. cbn [snd]. rewrite mutatingCalls_app. cbn. apply app_nil_r.
Qed.

(** X6.  A cycle makes an HTTP request only when the directory lookup gave
    exactly one pod, with a non-empty IP, and the peers URL built from that
    IP parses: a lookup error, another number of pods, an empty IP or an
    unusable URL all end the cycle before any request. *)
Theorem http_call_needs_resolved_pod tr :
  requests (snd (cycle tr)) <> requests tr ->
  exists ip, resolved tr ip.
Proof.
  intros Hcalls.
  destruct (cycle_cases tr) as [Hstop | (ip & Hres & _)]; [|now exists ip].
  destruct Hcalls. rewrite Hstop. cbn [snd]. rewrite requests_app. cbn.
  apply app_nil_r.
Qed.

(** X7.  When the first record of the desired alias is stale and its DELETE
    is not answered 204 (another status, or a transport error), the cycle
    returns [false] right after the DELETE: no POST is sent and the rest of
    the list is not looked at. *)
Theorem failed_delete_aborts_cycle tr ip pre p post a i :
  Listed W mainNodeName iotaHornetSelector iotaHornetNs port tr ip
    (pre ++ p :: post)%list ->
  Forall (fun q => hasAlias myNodeName q = false) pre ->
  hasAlias myNodeName p = true ->
  getMultiaddressFromPeer p = Some a ->
  as_string (p !! "id") = Some i ->
  a ++ "/p2p/" ++ i <> multiaddress ->
  url_parses W (peerURL ip port i) = true ->
  let listed := (tr ++ [lookup; EvHttp (getPeersRequest ip port)])%list in
  deleted (http_do W listed (deletePeerRequest ip port i)) = false ->
  cycle tr = (false, (listed ++ [EvHttp (deletePeerRequest ip port i)])%list).
Proof.
  intros Hl Hpre Hp Ha Hi Hne Hurl listed Hdel.
  rewrite (tryPeering_listed _ _ _ _ _ _ _ _ _ _ Hl). cbv zeta.
  rewrite rangePeers_skip by exact Hpre.
  rewrite (rangePeers_stale W myNodeName multiaddress port ip p a i) by assumption.
  fold listed. now rewrite Hdel.
Qed.

(** X8.  When the first record of the desired alias is stale and the URL of
    its DELETE, which ends in the record's id, does not parse, the cycle
    returns [false] without sending the DELETE or a POST. *)
Theorem unbuildable_delete_aborts_cycle tr ip pre p post a i :
  Listed W mainNodeName iotaHornetSelector iotaHornetNs port tr ip
    (pre ++ p :: post)%list ->
  Forall (fun q => hasAlias myNodeName q = false) pre ->
  hasAlias myNodeName p = true ->
  getMultiaddressFromPeer p = Some a ->
  as_string (p !! "id") = Some i ->
  a ++ "/p2p/" ++ i <> multiaddress ->
  url_parses W (peerURL ip port i) = false ->
  cycle tr = (false, (tr ++ [lookup; EvHttp (getPeersRequest ip port)])%list).
Proof.
  intros Hl Hpre Hp Ha Hi Hne Hurl.
  rewrite (tryPeering_listed _ _ _ _ _ _ _ _ _ _ Hl). cbv zeta.
  rewrite rangePeers_skip by exact Hpre.
  now rewrite (rangePeers_unbuildable ip p a i) by assumption.
Qed.

(** X9.  The scan of the list depends on the records of the desired alias
    only: leaving out every other record (another alias, no alias, an alias
    that is not a string) changes neither its result nor its calls. *)
Theorem scan_ignores_other_records ip peers : forall tr,
  rangePeers W myNodeName multiaddress ip port
    (List.filter (hasAlias myNodeName) peers) tr
  = rangePeers W myNodeName multiaddress ip port peers tr.
Proof.
  induction peers as [|p rest IH]; intros tr; [reflexivity|].
  cbn [List.filter].
  destruct (record_cases p)
    as [Hp | [[Hp Hr] | [[Hp Hr] | (Hp & a & i & Ha & Hi & Hne)]]];
    rewrite Hp.
  - rewrite rangePeers_other by exact Hp. apply IH.
  - now rewrite !rangePeers_incomplete.
  - now rewrite !rangePeers_converged.
  - destruct (url_parses W (peerURL ip port i)) eqn:Hurl.
    + rewrite !(rangePeers_stale W myNodeName multiaddress port ip p a i)
        by assumption.
      destruct (deleted _); [apply IH|reflexivity].
    + now rewrite !(rangePeers_unbuildable ip p a i) by assumption.
Qed.

(** X10.  When every record of the desired alias is stale (it has an id and
    a first address, and they do not give the desired address), the DELETE
    URLs parse and every DELETE is answered 204, the cycle deletes all of
    them, one DELETE per record in the order of the list, then sends the one
    POST, and returns [true] exactly when the POST is answered 200. *)
Theorem stale_duplicates_are_all_deleted tr ip peers :
  Listed W mainNodeName iotaHornetSelector iotaHornetNs port tr ip peers ->
  Forall (fun p => hasAlias myNodeName p = true ->
                   exists a i, getMultiaddressFromPeer p = Some a
                               /\ as_string (p !! "id") = Some i
                               /\ a ++ "/p2p/" ++ i <> multiaddress
                               /\ url_parses W (peerURL ip port i) = true) peers ->
  (forall tr' i, deleted (http_do W tr' (deletePeerRequest ip port i)) = true) ->
  let listed := (tr ++ [lookup; EvHttp (getPeersRequest ip port)])%list in
  let dels := map EvHttp (map (deleteOf ip port)
                            (List.filter (hasAlias myNodeName) peers)) in
  let create := postPeerRequest W ip port multiaddress myNodeName in
  cycle tr = (postAnswer (http_do W (listed ++ dels)%list create),
              (listed ++ dels ++ [EvHttp create])%list).
Proof.
  intros Hl Hstale Hdel listed dels create.
  rewrite (tryPeering_listed _ _ _ _ _ _ _ _ _ _ Hl). cbv zeta. fold listed.
  assert (Hscan : forall tr0,
            rangePeers W myNodeName multiaddress ip port peers tr0
            = (None, (tr0 ++ map EvHttp (map (deleteOf ip port)
                                           (List.filter (hasAlias myNodeName) peers)))%list)).
  { clear Hl listed dels. induction Hstale as [|p rest Hp _ IH]; intros tr0.
    { cbn. now rewrite app_nil_r. }
    cbn [List.filter].
    destruct (record_cases p)
      as [Hq | [[Hq Hr] | [[Hq Hr] | (Hq & a & i & Ha & Hi & Hne)]]]; rewrite Hq.
    - rewrite rangePeers_other by exact Hq. apply IH.
    - destruct (Hp Hq) as (a & i & Ha & Hi & _).
      unfold reconstructedAddress in Hr. rewrite Ha, Hi in Hr. discriminate.
    - destruct (Hp Hq) as (a & i & Ha & Hi & Hne & _).
      unfold reconstructedAddress in Hr. rewrite Ha, Hi in Hr. congruence.
    - destruct (Hp Hq) as (a' & i' & _ & Hi' & _ & Hurl).
      assert (i' = i) as -> by congruence.
      rewrite (rangePeers_stale W myNodeName multiaddress port ip p a i)
        by assumption.
      rewrite Hdel, IH. cbn [map]. unfold deleteOf at 2. rewrite Hi. cbn [default].
      now rewrite <- app_assoc. }
  rewrite Hscan. cbn [fst snd]. fold dels.
  rewrite establishPeering_run by apply Hl. fold create.
  now rewrite <- app_assoc.
Qed.

End CycleCases.

(** * Further properties of the address builder and of start-up *)

(** ** Reading a record *)

(** X11.  [getMultiaddressFromPeer] gives an address exactly when the record
    has a [multiAddress] entry that is a list whose first element is a
    string, and it gives that string; a missing entry, an entry of another
    type, an empty list and a first element that is not a string all give
    nothing. *)
Theorem getMultiaddressFromPeer_Some (p : PeerRecord) (s : string) :
  getMultiaddressFromPeer p = Some s
  <-> exists rest, p !! "multiAddress" = Some (JArray (JString s :: rest)).
Proof.
  unfold getMultiaddressFromPeer. split.
  - destruct (p !! "multiAddress") as [[| | | |[|[| | |s'| |] rest]|]|];
      try discriminate.
    intros [= ->]. now exists rest.
  - intros (rest & ->). reflexivity.
Qed.

(** ** The form of the address *)

(** X15.  The address format is unambiguous: two addresses built from valid
    IPv4 strings are equal only when the IP strings, the ports and the peer
    IDs are equal. *)
Theorem multiaddress_is_unambiguous (ip ip' : string) (p p' : Z) (s s' : string) :
  isIPv4 ip = true ->
  isIPv4 ip' = true ->
  sprintfMultiaddress ip p s = sprintfMultiaddress ip' p' s' ->
  ip = ip' /\ p = p' /\ s = s'.
Proof.
  intros Hip Hip' Heq. apply (f_equal parseMultiaddress) in Heq.
  rewrite !parse_sprintf in Heq by now apply isIPv4_noSlash.
  now injection Heq as -> -> ->.
Qed.

(** ** Waiting for the key file *)

Lemma waitForFile_absent (W : World) (path : string) :
  (forall tr, stat_not_exist W tr path = true) ->
  forall fuel tr, waitForFile W path fuel tr = (false, polls path fuel tr).
Proof.
  intros Habsent. induction fuel as [|fuel IH]; intros tr; [reflexivity|].
  cbn [waitForFile polls]. run. rewrite Habsent. cbn [negb]. run.
  rewrite <- app_assoc. apply IH.
Qed.

(** X13.  While the key file is absent, [calculateMultiaddress] does not
    return and does nothing but poll: one [os.Stat] and one sleep of five
    seconds per round, and no read of the file. *)
Theorem absent_key_file_blocks (W : World) (path myIp : string) (port : Z) :
  (forall tr, stat_not_exist W tr path = true) ->
  forall fuel tr,
    calculateMultiaddress W fuel path myIp port tr = (None, polls path fuel tr).
Proof.
  intros Habsent fuel tr. unfold calculateMultiaddress. run.
  now rewrite (waitForFile_absent W path Habsent).
Qed.

(** X12.  When the key file appears at poll [k] and the key in it loads,
    [calculateMultiaddress] returns, for any fuel above [k], the address
    built from the IP, the port and the peer ID of the key, after [k] sleeps
    of five seconds and one read of the file. *)
Theorem calculateMultiaddress_returns (W : World) (path myIp : string) (port : Z)
    (k fuel : nat) (tr : list Event) (bytes block privKey libp2pPrivKey peerID : string) :
  (forall j, (j < k)%nat -> stat_not_exist W (polls path j tr) path = true) ->
  stat_not_exist W (polls path k tr) path = false ->
  (k < fuel)%nat ->
  read_file W (polls path k tr ++ [EvStat path])%list path = Ok bytes ->
  pem_decode W bytes = Some block ->
  parse_pkcs8 W block = Ok (Ed25519Key privKey) ->
  keypair_from_std_key W privKey = Ok libp2pPrivKey ->
  id_from_private_key W libp2pPrivKey = Ok peerID ->
  calculateMultiaddress W fuel path myIp port tr
  = (Some (Ok (sprintfMultiaddress myIp port peerID)),
     (polls path k tr ++ [EvStat path; EvReadFile path])%list).
Proof.
  intros Hbefore Hat Hfuel Hread Hpem Hkey Hpair Hid.
  unfold calculateMultiaddress. run.
  rewrite (waitForFile_found W path k fuel tr Hbefore Hat Hfuel). cbn [fst snd negb].
  unfold readEd25519PrivateKeyFromPEMFile. run.
  rewrite Hread, Hpem, Hkey. cbn [fst snd]. rewrite Hpair, Hid.
  now rewrite <- app_assoc.
Qed.

Lemma networkCalls_app (a b : list Event) :
  networkCalls (a ++ b)%list = (networkCalls a ++ networkCalls b)%list.
Proof. apply List.filter_app. Qed.

Lemma keyReads_app (a b : list Event) :
  keyReads (a ++ b)%list = (keyReads a ++ keyReads b)%list.
Proof. apply List.filter_app. Qed.

Lemma lookups_app (a b : list Event) :
  lookups (a ++ b)%list = (lookups a ++ lookups b)%list.
Proof. apply List.filter_app. Qed.

(** The file-wait loop makes no network call and reads no file. *)
Lemma waitForFile_local (W : World) (path : string) : forall fuel tr,
  exists evs,
    snd (waitForFile W path fuel tr) = (tr ++ evs)%list
    /\ networkCalls evs = [] /\ keyReads evs = [].
Proof.
  induction fuel as [|fuel IH]; intros tr.
  { exists []. cbn. now rewrite app_nil_r. }
  cbn [waitForFile]. run.
  destruct (stat_not_exist W tr path); cbn [negb].
  - run. destruct (IH ((tr ++ [EvStat path]) ++ [EvSleep (5 * Second)])%list)
      as (evs & Htr & Hnet & Hread).
    exists (EvStat path :: EvSleep (5 * Second) :: evs).
    rewrite Htr, <- !app_assoc. auto.
  - exists [EvStat path]. auto.
Qed.

(** ** Loading the key *)

(** X14.  [readEd25519PrivateKeyFromPEMFile] reads the file once, and gives
    a key exactly when the file can be read, holds a PEM block, the block is
    a PKCS#8 structure and the key in it is an Ed25519 key; it then gives
    that key. *)
Theorem readEd25519PrivateKeyFromPEMFile_Ok
    (W : World) (filepath : string) (tr : list Event) (privKey : string) :
  snd (readEd25519PrivateKeyFromPEMFile W filepath tr) = (tr ++ [EvReadFile filepath])%list
  /\ (fst (readEd25519PrivateKeyFromPEMFile W filepath tr) = Ok privKey
      <-> exists bytes block,
            read_file W tr filepath = Ok bytes
            /\ pem_decode W bytes = Some block
            /\ parse_pkcs8 W block = Ok (Ed25519Key privKey)).
Proof.
  unfold readEd25519PrivateKeyFromPEMFile. run.
  destruct (read_file W tr filepath) as [bytes|err].
  2: { split; [reflexivity|]. split; [discriminate|]. now intros (? & ? & [=] & _). }
  destruct (pem_decode W bytes) as [block|] eqn:Hpem.
  2: { split; [reflexivity|]. split; [discriminate|].
       intros (? & ? & [= <-] & H & _). congruence. }
  destruct (parse_pkcs8 W block) as [key|err] eqn:Hkey.
  2: { split; [reflexivity|]. split; [discriminate|].
       intros (? & ? & [= <-] & H & H'). congruence. }
  destruct key as [| | |k];
    (split; [reflexivity|]; split;
     [try discriminate
     |intros (? & ? & [= <-] & H & H'); rewrite Hpem in H; injection H as <-;
      rewrite Hkey in H'; try discriminate]).
  - intros [= <-]. eauto.
  - now injection H' as <-.
Qed.

Lemma readEd25519PrivateKeyFromPEMFile_trace (W : World) (filepath : string) tr :
  snd (readEd25519PrivateKeyFromPEMFile W filepath tr) = (tr ++ [EvReadFile filepath])%list.
Proof.
  unfold readEd25519PrivateKeyFromPEMFile. run.
  destruct (read_file W tr filepath) as [bytes|err]; [|reflexivity].
  destruct (pem_decode W bytes) as [block|]; [|reflexivity].
  destruct (parse_pkcs8 W block) as [[| | |k]|err]; reflexivity.
Qed.

(** [calculateMultiaddress] makes no network call and reads at most one
    file. *)
Lemma calculateMultiaddress_local (W : World) (fuel : nat) (path myIp : string)
    (port : Z) (tr : list Event) :
  exists evs,
    snd (calculateMultiaddress W fuel path myIp port tr) = (tr ++ evs)%list
    /\ networkCalls evs = [] /\ (length (keyReads evs) <= 1)%nat.
Proof.
  unfold calculateMultiaddress. run.
  destruct (waitForFile_local W path fuel tr) as (evs & Htr & Hnet & Hread).
  destruct (fst (waitForFile W path fuel tr)); cbn [negb].
  2: { exists evs. rewrite Hread. cbn. auto. }
  run. rewrite readEd25519PrivateKeyFromPEMFile_trace, Htr.
  assert (Hgoal : exists evs0,
            ((tr ++ evs) ++ [EvReadFile path])%list = (tr ++ evs0)%list
            /\ networkCalls evs0 = [] /\ (length (keyReads evs0) <= 1)%nat).
  { exists (evs ++ [EvReadFile path])%list.
    rewrite app_assoc, networkCalls_app, keyReads_app, Hnet, Hread. cbn. auto. }
  destruct (fst (readEd25519PrivateKeyFromPEMFile W path _)) as [privKey|err];
    [|exact Hgoal].
  destruct (keypair_from_std_key W privKey) as [libp2pPrivKey|err]; [|exact Hgoal].
  destruct (id_from_private_key W libp2pPrivKey); exact Hgoal.
Qed.

(** ** Start-up *)

(** [main] once the flags are validated and the node is not the main node. *)
Lemma main_started (W : World) (flags : Flags) (fuel : nat) (tr : list Event) :
  flagsValid flags = true ->
  mainNodeName flags <> MyNodeName (fst (env_Parse W)) ->
  main W flags fuel tr
  = match in_cluster_config W tr with
    | Err _ => (Exited 1, (tr ++ [EvInClusterConfig])%list)
    | Ok _ =>
        match new_for_config W (tr ++ [EvInClusterConfig])%list with
        | Err _ => (Exited 1, (tr ++ [EvInClusterConfig; EvNewForConfig])%list)
        | Ok _ =>
            let built :=
              calculateMultiaddress W fuel (privateKeyFile flags)
                (MyIP (fst (env_Parse W))) (gossipProtocolPort flags)
                (tr ++ [EvInClusterConfig; EvNewForConfig])%list in
            match fst built with
            | None => (Running, snd built)
            | Some (Err _) => (Exited 1, snd built)
            | Some (Ok multiaddress) =>
                schedulerLoop W flags (MyNodeName (fst (env_Parse W))) multiaddress
                  fuel (snd built)
            end
        end
    end.
Proof.
  unfold flagsValid, main. intros Hflags Hnode.
  destruct (String.eqb (mainNodeName flags) ""); [discriminate|].
  destruct (String.eqb (iotaHornetSelector flags) ""); [discriminate|].
  destruct (String.eqb (iotaHornetNs flags) ""); [discriminate|].
  destruct (String.eqb (privateKeyFile flags) ""); [discriminate|].
  apply eqb_false_iff_neq in Hnode. rewrite Hnode. run.
  destruct (in_cluster_config W tr); [|reflexivity]. run.
  rewrite <- app_assoc. cbn [app].
  destruct (new_for_config W _); [|reflexivity]. run.
  now destruct (fst (calculateMultiaddress _ _ _ _ _ _)) as [[|]|].
Qed.

(** X16.  When one of the four required flags is empty, the process exits
    with status 1 before it does anything else, whatever the environment. *)
Theorem missing_required_flag_is_fatal (W : World) (flags : Flags) (fuel : nat)
    (tr : list Event) :
  mainNodeName flags = "" \/ iotaHornetSelector flags = ""
  \/ iotaHornetNs flags = "" \/ privateKeyFile flags = "" ->
  main W flags fuel tr = (Exited 1, tr).
Proof.
  intros Hmissing. apply missing_flag_exits. unfold flagsValid.
  destruct Hmissing as [-> | [-> | [-> | ->]]]; cbn;
    now rewrite ?andb_false_r.
Qed.

(** X17.  On a node that is not the main node, a start-up step that fails
    (the in-cluster configuration, the client, or the loading of the key and
    the derivation of the peer ID) ends the process with status 1, before any
    directory lookup or HTTP request. *)
Theorem startup_failure_is_fatal (W : World) (flags : Flags) (fuel : nat)
    (tr : list Event) :
  flagsValid flags = true ->
  mainNodeName flags <> MyNodeName (fst (env_Parse W)) ->
  (exists err, in_cluster_config W tr = Err err)
  \/ (exists err, new_for_config W (tr ++ [EvInClusterConfig])%list = Err err)
  \/ (exists err,
        fst (calculateMultiaddress W fuel (privateKeyFile flags)
               (MyIP (fst (env_Parse W))) (gossipProtocolPort flags)
               (tr ++ [EvInClusterConfig; EvNewForConfig])%list) = Some (Err err)) ->
  fst (main W flags fuel tr) = Exited 1
  /\ networkCalls (snd (main W flags fuel tr)) = networkCalls tr.
Proof.
  intros Hflags Hnode Hfail. rewrite (main_started W flags fuel tr Hflags Hnode).
  assert (H1 : networkCalls (tr ++ [EvInClusterConfig])%list = networkCalls tr).
  { rewrite networkCalls_app. cbn. apply app_nil_r. }
  assert (H2 : networkCalls (tr ++ [EvInClusterConfig; EvNewForConfig])%list
               = networkCalls tr).
  { rewrite networkCalls_app. cbn. apply app_nil_r. }
  destruct (calculateMultiaddress_local W fuel (privateKeyFile flags)
              (MyIP (fst (env_Parse W))) (gossipProtocolPort flags)
              (tr ++ [EvInClusterConfig; EvNewForConfig])%list)
    as (evs & Htr & Hnet & _).
  destruct (in_cluster_config W tr) as [u|e1]; [|now split].
  destruct (new_for_config W _) as [u'|e2]; [|now split].
  destruct Hfail as [[err [=]] | [[err [=]] | [err Herr]]].
  cbv zeta. rewrite Herr. cbn [fst snd]. split; [reflexivity|].
  now rewrite Htr, networkCalls_app, Hnet, app_nil_r.
Qed.


(** ** The scheduler loop *)

Lemma lookups_http (reqs : list Request) : lookups (map EvHttp reqs) = [].
Proof. induction reqs as [|req reqs IH]; [reflexivity|exact IH]. Qed.

Lemma keyReads_http (reqs : list Request) : keyReads (map EvHttp reqs) = [].
Proof. induction reqs as [|req reqs IH]; [reflexivity|exact IH]. Qed.

(** A cycle adds its directory lookup and HTTP requests, nothing else. *)
Lemma cycle_requests_only (W : World)
    (myNodeName mainNodeName iotaHornetSelector iotaHornetNs multiaddress : string)
    (port : Z) (tr : list Event) :
  exists reqs,
    snd (tryPeering W myNodeName mainNodeName iotaHornetSelector iotaHornetNs
           multiaddress port tr)
    = (tr ++ podLookup iotaHornetSelector iotaHornetNs mainNodeName
          :: map EvHttp reqs)%list.
Proof.
  destruct (cycle_cases W myNodeName mainNodeName iotaHornetSelector iotaHornetNs
              multiaddress port tr)
    as [Hstop | (ip & _ & [Hstop | (peers & Hl)])].
  - exists []. now rewrite Hstop.
  - exists [getPeersRequest ip port]. now rewrite Hstop.
  - rewrite (tryPeering_listed _ _ _ _ _ _ _ _ _ _ Hl). cbv zeta.
    destruct (rangePeers_trace W myNodeName multiaddress port ip peers
                (tr ++ [podLookup iotaHornetSelector iotaHornetNs mainNodeName;
                        EvHttp (getPeersRequest ip port)])%list)
      as (dels & Htr & _).
    destruct (fst (rangePeers _ _ _ _ _ _ _)) as [b|].
    + exists (getPeersRequest ip port :: dels). cbn [snd map].
      now rewrite Htr, <- app_assoc.
    + exists (getPeersRequest ip port
              :: dels ++ [postPeerRequest W ip port multiaddress myNodeName])%list.
      rewrite establishPeering_run by apply Hl. cbn [snd map].
      now rewrite Htr, map_app, <- !app_assoc.
Qed.

(** What [fuel] rounds of the scheduler loop add to the trace. *)
Lemma scheduler_rounds
    (W : World) (flags : Flags) (myNodeName multiaddress : string) :
  forall (fuel : nat) (tr : list Event),
    exists evs,
      schedulerLoop W flags myNodeName multiaddress fuel tr = (Running, (tr ++ evs)%list)
      /\ length (lookups evs) = fuel
      /\ keyReads evs = [].
Proof.
  induction fuel as [|fuel IH]; intros tr.
  { exists []. cbn. now rewrite app_nil_r. }
  cbn [schedulerLoop]. run.
  destruct (cycle_requests_only W myNodeName (mainNodeName flags)
              (iotaHornetSelector flags) (iotaHornetNs flags) multiaddress
              (hornetRestApiPort flags) tr) as (reqs & Hcycle).
  rewrite Hcycle.
  set (lookup := podLookup (iotaHornetSelector flags) (iotaHornetNs flags)
                   (mainNodeName flags)).
  set (pause := if fst (tryPeering W myNodeName (mainNodeName flags)
                          (iotaHornetSelector flags) (iotaHornetNs flags)
                          multiaddress (hornetRestApiPort flags) tr)
                then [EvSleep (retryPeriod flags); EvSleep (refreshPeriod flags)]
                else [EvSleep (retryPeriod flags)]).
  assert (Hpause : lookups pause = [] /\ keyReads pause = []).
  { unfold pause. now destruct (fst _). }
  destruct (IH (tr ++ [lookup] ++ map EvHttp reqs ++ pause)%list)
    as (evs & Hrun & Hlook & Hread).
  exists ([lookup] ++ map EvHttp reqs ++ pause ++ evs)%list.
  split; [|split].
  - etransitivity; [|etransitivity; [exact Hrun|]].
    + f_equal. unfold pause.
      destruct (fst _); run; rewrite <- !app_assoc; reflexivity.
    + f_equal. now rewrite <- !app_assoc.
  - rewrite !lookups_app, lookups_http. destruct Hpause as [-> _].
    cbn. now rewrite Hlook.
  - rewrite !keyReads_app, keyReads_http. destruct Hpause as [_ ->].
    exact Hread.
Qed.

(** X19.  The scheduler loop never exits, resolves the main node afresh in
    every cycle (one directory lookup per call of [tryPeering]) and never
    reads the key file again. *)
Theorem scheduler_looks_up_once_per_cycle
    (W : World) (flags : Flags) (myNodeName multiaddress : string)
    (fuel : nat) (tr : list Event) :
  fst (schedulerLoop W flags myNodeName multiaddress fuel tr) = Running
  /\ exists evs,
       snd (schedulerLoop W flags myNodeName multiaddress fuel tr) = (tr ++ evs)%list
       /\ length (lookups evs) = fuel
       /\ keyReads evs = [].
Proof.
  destruct (scheduler_rounds W flags myNodeName multiaddress fuel tr)
    as (evs & Hrun & Hlook & Hread).
  rewrite Hrun. split; [reflexivity|]. now exists evs.
Qed.

Lemma scheduler_trace_helper
    (W : World) (flags : Flags) (myNodeName multiaddress : string)
    (fuel : nat) (tr : list Event) :
  exists evs,
    schedulerLoop W flags myNodeName multiaddress fuel tr = (Running, (tr ++ evs)%list)
    /\ keyReads evs = [].
Proof.
  destruct (scheduler_rounds W flags myNodeName multiaddress fuel tr)
    as (evs & Hrun & _ & Hread).
  now exists evs.
Qed.

Lemma keyReads_sleeps (d : Z) (n : nat) : keyReads (repeat (EvSleep d) n) = [].
Proof. induction n as [|n IH]; [reflexivity|exact IH]. Qed.

(** X20.  However long the process runs, it reads the key file at most
    once: the multiaddress is built at start-up and reused by every cycle. *)
Theorem key_file_is_read_at_most_once (W : World) (flags : Flags) (fuel : nat)
    (tr : list Event) :
  exists evs,
    snd (main W flags fuel tr) = (tr ++ evs)%list
    /\ (length (keyReads evs) <= 1)%nat.
Proof.
  destruct (flagsValid flags) eqn:Hflags.
  2: { rewrite (missing_flag_exits W flags fuel tr Hflags).
       exists []. cbn. rewrite app_nil_r. auto. }
  destruct (String.eqb_spec (mainNodeName flags) (MyNodeName (fst (env_Parse W))))
    as [Heq|Hnode].
  { exists (repeat (EvSleep (10000 * Hour)) fuel). unfold main.
    unfold flagsValid in Hflags.
    destruct (String.eqb (mainNodeName flags) ""); [discriminate|].
    destruct (String.eqb (iotaHornetSelector flags) ""); [discriminate|].
    destruct (String.eqb (iotaHornetNs flags) ""); [discriminate|].
    destruct (String.eqb (privateKeyFile flags) ""); [discriminate|].
    rewrite Heq, String.eqb_refl, sleepForever_run, keyReads_sleeps. cbn. auto. }
  rewrite (main_started W flags fuel tr Hflags Hnode).
  destruct (in_cluster_config W tr) as [u|e1].
  2: { exists [EvInClusterConfig]. cbn. auto. }
  destruct (new_for_config W _) as [u'|e2].
  2: { exists [EvInClusterConfig; EvNewForConfig]. cbn. auto. }
  cbv zeta.
  destruct (calculateMultiaddress_local W fuel (privateKeyFile flags)
              (MyIP (fst (env_Parse W))) (gossipProtocolPort flags)
              (tr ++ [EvInClusterConfig; EvNewForConfig])%list)
    as (evs & Htr & _ & Hread).
  assert (Hstart : exists evs0,
            snd (calculateMultiaddress W fuel (privateKeyFile flags)
                   (MyIP (fst (env_Parse W))) (gossipProtocolPort flags)
                   (tr ++ [EvInClusterConfig; EvNewForConfig])%list)
            = (tr ++ evs0)%list
            /\ (length (keyReads evs0) <= 1)%nat).
  { exists ([EvInClusterConfig; EvNewForConfig] ++ evs)%list.
    rewrite Htr, <- app_assoc. split; [reflexivity|].
    now rewrite keyReads_app. }
  destruct (fst (calculateMultiaddress _ _ _ _ _ _)) as [[multiaddress|err]|];
    try exact Hstart.
  destruct Hstart as (evs0 & Htr0 & Hread0).
  destruct (scheduler_trace_helper W flags (MyNodeName (fst (env_Parse W)))
              multiaddress fuel
              (snd (calculateMultiaddress W fuel (privateKeyFile flags)
                      (MyIP (fst (env_Parse W))) (gossipProtocolPort flags)
                      (tr ++ [EvInClusterConfig; EvNewForConfig])%list)))
    as (evs1 & Hrun & Hread1).
  exists (evs0 ++ evs1)%list. rewrite Hrun. cbn [snd].
  rewrite Htr0, <- app_assoc. split; [reflexivity|].
  now rewrite keyReads_app, Hread1, app_nil_r.
Qed.

(** * More scenarios *)

Section MoreScenarios.

Import Scenario.

Lemma cycle_without_record_creates_once_witness :
  cycle emptyTable = (true, [lookup; EvHttp get; EvHttp (create emptyTable)]).
Proof.
  refine (eq_trans
            (cycle_without_record_creates_once emptyTable myNodeName "node-a"
               "app=hornet" "iota" multiaddress 14265 [] "10.0.0.1" [] _ _) _).
  - apply scenario_listed.
  - constructor.
  - vm_compute; reflexivity.
Defined.

Lemma matching_record_prevents_create_witness :
  calls POST (snd (cycle staleThenFresh)) = calls POST [].
Proof.
  apply (matching_record_prevents_create staleThenFresh myNodeName "node-a"
           "app=hornet" "iota" multiaddress 14265 [] "10.0.0.1" [stale; fresh] fresh).
  - apply scenario_listed.
  - right. left. reflexivity.
  - vm_compute; reflexivity.
  - vm_compute; reflexivity.
Defined.

Lemma successful_cycle_converged_or_created_witness :
  exists ip peers,
    Listed converged "node-a" "app=hornet" "iota" 14265 [] ip peers
    /\ ((exists p, In p peers /\ hasAlias myNodeName p = true
                   /\ reconstructedAddress p = Some multiaddress)
        \/ (exists tr0 res,
              snd (cycle converged)
              = (tr0 ++ [EvHttp (postPeerRequest converged ip 14265 multiaddress
                                   myNodeName)])%list
              /\ http_do converged tr0
                   (postPeerRequest converged ip 14265 multiaddress myNodeName) = Ok res
              /\ StatusCode res = 200)).
Proof.
  apply (successful_cycle_converged_or_created converged myNodeName "node-a"
           "app=hornet" "iota" multiaddress 14265 []).
  vm_compute; reflexivity.
Defined.

Lemma unlisted_cycle_fails_without_mutation_witness :
  cycle Faults.listRefused = (false, ([] ++ [lookup; EvHttp get])%list)
  /\ mutatingCalls (snd (cycle Faults.listRefused)) = mutatingCalls [].
Proof.
  apply (unlisted_cycle_fails_without_mutation Faults.listRefused myNodeName "node-a"
           "app=hornet" "iota" multiaddress 14265 [] "10.0.0.1").
  - split; [reflexivity|]. split; [discriminate|reflexivity].
  - vm_compute; reflexivity.
Defined.

Lemma http_call_needs_resolved_pod_witness :
  exists ip,
    list_pods converged [] "iota"
      {| LabelSelector := "app=hornet"; FieldSelector := "spec.nodeName=" ++ "node-a" |}
    = Ok [{| PodIP := ip |}]
    /\ ip <> ""
    /\ url_parses converged (peersURL ip 14265) = true.
Proof.
  apply (http_call_needs_resolved_pod converged myNodeName "node-a"
           "app=hornet" "iota" multiaddress 14265 []).
  vm_compute. discriminate.
Defined.

Lemma failed_delete_aborts_cycle_witness :
  cycle Faults.deleteRefused = (false, [lookup; EvHttp get; EvHttp (delete "Qm999")]).
Proof.
  refine (eq_trans
            (failed_delete_aborts_cycle Faults.deleteRefused myNodeName "node-a"
               "app=hornet" "iota" multiaddress 14265 [] "10.0.0.1" [] stale [fresh]
               "/ip4/10.0.0.9/tcp/15600" "Qm999" _ _ _ _ _ _ _ _) _).
  - apply scenario_listed.
  - constructor.
  - vm_compute; reflexivity.
  - vm_compute; reflexivity.
  - vm_compute; reflexivity.
  - vm_compute. discriminate.
  - reflexivity.
  - vm_compute; reflexivity.
  - reflexivity.
Defined.

Lemma unbuildable_delete_aborts_cycle_witness :
  cycle Faults.deleteUnbuildable = (false, ([] ++ [lookup; EvHttp get])%list).
Proof.
  apply (unbuildable_delete_aborts_cycle Faults.deleteUnbuildable myNodeName "node-a"
           "app=hornet" "iota" multiaddress 14265 [] "10.0.0.1" [] stale []
           "/ip4/10.0.0.9/tcp/15600" "Qm999").
  - constructor; [reflexivity|discriminate|vm_compute; reflexivity|].
    exists "peers". split; reflexivity.
  - constructor.
  - vm_compute; reflexivity.
  - vm_compute; reflexivity.
  - vm_compute; reflexivity.
  - vm_compute. discriminate.
  - vm_compute; reflexivity.
Defined.

Lemma absent_key_file_blocks_witness :
  calculateMultiaddress Faults.keyAbsent 3 "/app/p2pstore/identity.key" "10.0.0.5" 15600 []
  = (None, polls "/app/p2pstore/identity.key" 3 []).
Proof.
  apply (absent_key_file_blocks Faults.keyAbsent "/app/p2pstore/identity.key"
           "10.0.0.5" 15600).
  intros tr. reflexivity.
Defined.

Lemma startup_failure_is_fatal_witness :
  fst (main Faults.keyIsRSA flags 1 []) = Exited 1
  /\ networkCalls (snd (main Faults.keyIsRSA flags 1 [])) = networkCalls [].
Proof.
  apply (startup_failure_is_fatal Faults.keyIsRSA flags 1 []).
  - reflexivity.
  - discriminate.
  - right. right.
    exists "unable to load Ed25519 private key for peer identity: unable to type assert private key".
    vm_compute; reflexivity.
Defined.


Lemma multiaddress_is_unambiguous_witness :
  "10.0.0.5" = "10.0.0.5" /\ 15600 = 15600 /\ "Qm123" = "Qm123".
Proof.
  apply (multiaddress_is_unambiguous "10.0.0.5" "10.0.0.5" 15600 15600 "Qm123" "Qm123");
    reflexivity.
Defined.

Lemma missing_required_flag_is_fatal_witness :
  main replaced flagsNoSelector 2 [] = (Exited 1, []).
Proof.
  apply (missing_required_flag_is_fatal replaced flagsNoSelector 2 []).
  right. left. reflexivity.
Defined.

Lemma stale_duplicates_are_all_deleted_witness :
  cycle twoStale
  = (true, [lookup; EvHttp get; EvHttp (delete "Qm999"); EvHttp (delete "Qm888");
            EvHttp (create twoStale)]).
Proof.
  refine (eq_trans
            (stale_duplicates_are_all_deleted twoStale myNodeName "node-a"
               "app=hornet" "iota" multiaddress 14265 [] "10.0.0.1" [stale; stale2]
               _ _ _) _).
  - apply scenario_listed.
  - repeat constructor.
    + intros _. exists "/ip4/10.0.0.9/tcp/15600", "Qm999".
      repeat split; try (vm_compute; reflexivity). vm_compute. discriminate.
    + intros _. exists "/ip4/10.0.0.8/tcp/15600", "Qm888".
      repeat split; try (vm_compute; reflexivity). vm_compute. discriminate.
  - intros tr' i. reflexivity.
  - vm_compute; reflexivity.
Defined.

Lemma calculateMultiaddress_returns_witness :
  calculateMultiaddress Faults.keyLate 4 "/app/p2pstore/identity.key" "10.0.0.5" 15600 []
  = (Some (Ok (sprintfMultiaddress "10.0.0.5" 15600 "Qm123")),
     (polls "/app/p2pstore/identity.key" 3 []
        ++ [EvStat "/app/p2pstore/identity.key";
            EvReadFile "/app/p2pstore/identity.key"])%list).
Proof.
  apply (calculateMultiaddress_returns Faults.keyLate "/app/p2pstore/identity.key"
           "10.0.0.5" 15600 3 4 [] "pem" "der" "key" "key" "Qm123").
  - intros [|[|[|j]]] Hj; try reflexivity. lia.
  - reflexivity.
  - lia.
  - reflexivity.
  - reflexivity.
  - reflexivity.
  - reflexivity.
  - reflexivity.
Defined.

End MoreScenarios.
